(** * puter-cli, [src/commands/apps.js]: the app, subdomain and site commands

    A shallow embedding of the command functions of [apps.js] and the
    properties of their request traces and console output.

    The commands are sequential scripts: every [await] is a point where the
    remote API answers, and between two such points the code only inspects
    the JSON it received and prints lines.  The embedding therefore is a
    state-and-exception monad over a [world] that records, in order, the
    requests issued and the lines printed; the remote API and the other
    modules of the CLI ([auth.js], [commons.js], the JavaScript runtime)
    are gathered in an environment record [Env]. *)

From Stdlib Require Import List String Ascii ZArith Bool Lia DecimalString.
Import ListNotations.
Local Open Scope list_scope.
Local Open Scope string_scope.

Set Implicit Arguments.
Set Warnings "-register-all".

(** ** JavaScript values *)

(** The values the commands handle are the JSON documents of the API
    (plus [undefined], the value of a missing member).  Numbers are kept
    as integers: no command computes with them, they are only printed. *)
Inductive value : Type :=
| VUndef
| VNull
| VBool (b : bool)
| VNum (n : Z)
| VStr (s : string)
| VArr (items : list value)
| VObj (members : list (string * value)).

(** What a [catch (error)] block can observe: the class of the error and
    its [message]. *)
Inductive exn : Type :=
| Error (message : string)
| TypeError (message : string)
| SyntaxError (message : string).

Definition message (e : exn) : string :=
  match e with
  | Error m | TypeError m | SyntaxError m => m
  end.

(** The characters that string literals cannot hold directly. *)
Definition dq : string := String "034"%char EmptyString.
Definition nl : string := String "010"%char EmptyString.

(** Truthiness, as tested by [if (v)], [!v] and [c ? a : b]. *)
Definition truthy (v : value) : bool :=
  match v with
  | VUndef | VNull => false
  | VBool b => b
  | VNum n => negb (n =? 0)%Z
  | VStr s => negb (s =? EmptyString)
  | VArr _ | VObj _ => true
  end.

Fixpoint lookup (k : string) (ms : list (string * value)) : value :=
  match ms with
  | [] => VUndef
  | (k', v) :: rest => if k' =? k then v else lookup k rest
  end.

Definition describe (v : value) : string :=
  match v with
  | VUndef => "undefined"
  | _ => "null"
  end.

(** [v.k] and [v['k']].  Reading a member of [undefined] or [null] throws;
    an object answers with its own member; the other values have a
    [length] at most (none of the member names read in [apps.js] is
    inherited from a prototype). *)
Definition get (v : value) (k : string) : exn + value :=
  match v with
  | VUndef | VNull =>
      inl (TypeError ("Cannot read properties of " ++ describe v
                        ++ " (reading '" ++ k ++ "')"))
  | VObj ms => inr (lookup k ms)
  | VStr s => inr (if k =? "length" then VNum (Z.of_nat (String.length s)) else VUndef)
  | VArr l => inr (if k =? "length" then VNum (Z.of_nat (List.length l)) else VUndef)
  | VBool _ | VNum _ => inr VUndef
  end.

(** [v?.k] *)
Definition get_opt (v : value) (k : string) : exn + value :=
  match v with
  | VUndef | VNull => inr VUndef
  | _ => get v k
  end.

(** [v === s] for a string [s]: strict equality never coerces. *)
Definition str_eq (v : value) (s : string) : bool :=
  match v with
  | VStr t => t =? s
  | _ => false
  end.

(** [Array.isArray(v)] *)
Definition isArray (v : value) : bool :=
  match v with
  | VArr _ => true
  | _ => false
  end.

(** The elements of an array. *)
Definition elements (v : value) : list value :=
  match v with
  | VArr l => l
  | _ => []
  end.

(** The text a template literal [`${v}`] inserts for [v]. *)
Fixpoint to_string (v : value) : string :=
  match v with
  | VUndef => "undefined"
  | VNull => "null"
  | VBool true => "true"
  | VBool false => "false"
  | VNum n => NilZero.string_of_int (Z.to_int n)
  | VStr s => s
  | VArr l =>
      String.concat ","
        (map (fun x => match x with
                       | VUndef | VNull => EmptyString
                       | _ => to_string x
                       end) l)
  | VObj _ => "[object Object]"
  end.

(** ** Strings *)

(** [s.startsWith(p)] *)
Definition startsWith (p s : string) : bool := String.prefix p s.

(** [s.split(c)] for a one-character separator: the pieces between the
    occurrences of [c], at least one piece. *)
Fixpoint split (c : ascii) (s : string) : list string :=
  match s with
  | EmptyString => [EmptyString]
  | String a rest =>
      if Ascii.eqb a c then EmptyString :: split c rest
      else match split c rest with
           | [] => [String a EmptyString]
           | piece :: pieces => String a piece :: pieces
           end
  end.

(** The elements a [for ... of] loop draws from a string, one per
    character (the identifiers of the API are ASCII). *)
Fixpoint chars (s : string) : list value :=
  match s with
  | EmptyString => []
  | String a rest => VStr (String a EmptyString) :: chars rest
  end.

(** [s] occurs inside [t]. *)
Definition Substring (s t : string) : Prop :=
  exists pre post, t = pre ++ s ++ post.

(** ** The world outside the commands *)

(** A request: the URL and the object handed to [JSON.stringify] as body.
    Every request of [apps.js] is a POST carrying the headers of
    [getHeaders()], which are left out. *)
Record request : Type := Request { req_url : string; req_body : value }.

(** What [await fetch(...)] gives: the promise rejects, or a response
    arrives with its [ok] flag, its [status] and its body ([None] when the
    body is not JSON, so that [response.json()] rejects). *)
Record response : Type := Response {
  ok : bool;
  status : Z;
  payload : option value
}.

Inductive reply : Type :=
| Rejected (why : string)
| Arrived (r : response).

(** The collaborators of [apps.js]: the remote API, which answers a
    request knowing all the requests made so far (the last element of the
    history is the request being answered), and the functions imported
    from [auth.js] and [commons.js] or provided by the runtime. *)
Record Env : Type := {
  API_BASE : string;
  server : list request -> reply;
  getCurrentUserName : string;
  getCurrentDirectory : string;
  resolvePath : string -> string -> string;
  generateAppName : string;            (* the name the next call returns *)
  randomUUID : string;                 (* crypto.randomUUID() *)
  toLocaleString : value -> string;    (* new Date(v).toLocaleString() *)
  str_lt_one : string -> bool          (* Number(s) < 1 *)
}.

Inductive stream : Type := Stdout | Stderr.

(** The observable effects of a run, oldest first. *)
Record world : Type := World {
  calls : list request;
  out : list (stream * string)
}.

(** ** The monad of commands *)

Definition M (A : Type) : Type := world -> (exn + A) * world.

Definition ret {A} (a : A) : M A := fun w => (inr a, w).

Definition throw {A} (e : exn) : M A := fun w => (inl e, w).

Definition bind {A B} (m : M A) (k : A -> M B) : M B :=
  fun w =>
    match m w with
    | (inr a, w') => k a w'
    | (inl e, w') => (inl e, w')
    end.

(** [try { m } catch (error) { h error }] *)
Definition try_catch {A} (m : M A) (h : exn -> M A) : M A :=
  fun w =>
    match m w with
    | (inr a, w') => (inr a, w')
    | (inl e, w') => h e w'
    end.

(** A pure step that may throw. *)
Definition lift {A} (r : exn + A) : M A := fun w => (r, w).

Declare Scope cmd_scope.
Delimit Scope cmd_scope with cmd.
Notation "x <- m ;; k" := (bind m (fun x => k))
  (at level 61, m at next level, right associativity) : cmd_scope.
Notation "m ;; k" := (bind m (fun _ => k))
  (at level 61, right associativity) : cmd_scope.
Local Open Scope cmd_scope.

(** Traces are lists; [+++] appends them, leaving [++] to strings. *)
Infix "+++" := (@app _) (right associativity, at level 60).

(** [console.log] and [console.error]; [chalk] only colours the text and
    is dropped. *)
Definition console_log (line : string) : M unit :=
  fun w => (inr tt, World (calls w) (out w +++ [(Stdout, line)])).

Definition console_error (line : string) : M unit :=
  fun w => (inr tt, World (calls w) (out w +++ [(Stderr, line)])).

Section Commands.

Variable E : Env.

(** [await fetch(url, { method: 'POST', headers, body: JSON.stringify(b) })]:
    the request joins the history and the API answers it. *)
Definition fetch (r : request) : M response :=
  fun w =>
    let history := (calls w +++ [r]) in
    match server E history with
    | Rejected why => (inl (Error why), World history (out w))
    | Arrived r => (inr r, World history (out w))
    end.

(** [await response.json()] *)
Definition json (r : response) : M value :=
  match payload r with
  | Some v => ret v
  | None => throw (SyntaxError "Unexpected token in JSON")
  end.

(** The body of a call to the driver endpoint. *)
Definition driver_call (interface method : string) (args : value) : value :=
  VObj [("interface", VStr interface); ("method", VStr method); ("args", args)].

Definition drivers_url : string := API_BASE E ++ "/drivers/call".

(** ** [deleteSubdomain] *)

(** [v < 1]: a number is compared as it is, [undefined] is NaN, [null]
    and [false] are 0, [true] is 1, and a string, or the string an array
    or an object converts to, is read as a number. *)
Definition lt_one (v : value) : bool :=
  match v with
  | VUndef => false
  | VNull => true
  | VBool b => negb b
  | VNum n => (n <? 1)%Z
  | VStr s => str_lt_one E s
  | VArr _ | VObj _ => str_lt_one E (to_string v)
  end.

(** What [for (const x of v)] runs through: the elements of an array,
    the characters of a string; nothing else here is iterable. *)
Definition iterate (v : value) : exn + list value :=
  match v with
  | VArr l => inr l
  | VStr s => inr (chars s)
  | _ => inl (TypeError "subdomains is not iterable")
  end.

Definition delete_subdomain_request (subdomainId : value) : request :=
  Request drivers_url
    (driver_call "puter-subdomains" "delete"
       (VObj [("id", VObj [("subdomain", subdomainId)])])).

(** One turn of the loop of [deleteSubdomain], the [try]/[catch]
    statement: [Some b] when the turn executes [return b], [None] when it
    runs to its end and the loop goes on. *)
Definition deleteSubdomain_attempt (subdomainId : value) : M (option bool) :=
  try_catch
    (response <- fetch (delete_subdomain_request subdomainId) ;;
     data <- json response ;;
     success <- lift (get data "success") ;;
     if negb (truthy success) then
       error <- lift (get data "error") ;;
       code <- lift (get_opt error "code") ;;
       if str_eq code "entity_not_found" then
         console_log ("Subdomain ID: " ++ dq ++ to_string subdomainId ++ dq
                        ++ " not found") ;;
         ret (Some false)
       else
         msg <- lift (get_opt error "message") ;;
         console_log ("Failed to delete subdomain: " ++ to_string msg) ;;
         ret (Some false)
     else
       console_log "Subdomain deleted successfully" ;;
       ret None)
    (fun error =>
       console_error ("Error deleting subdomain: " ++ message error) ;;
       ret None).

(** The [for ... of] loop followed by the [return true] that stands after
    it: the loop has no braces, its body is the [try] statement alone. *)
Fixpoint deleteSubdomain_loop (subdomains : list value) : M bool :=
  match subdomains with
  | [] => ret true
  | subdomainId :: rest =>
      r <- deleteSubdomain_attempt subdomainId ;;
      match r with
      | Some b => ret b
      | None => deleteSubdomain_loop rest
      end
  end.

(** [deleteSubdomain(args = [])].  The parameter is whatever the caller
    passes: [deleteSite] and [deploySite] pass a single identifier, not an
    array. *)
Definition deleteSubdomain (args : value) : M bool :=
  let args := match args with VUndef => VArr [] | _ => args end in
  len <- lift (get args "length") ;;
  if lt_one len then
    console_log "Usage: domain:delete <subdomain_id>" ;;
    ret false
  else
    subdomains <- lift (iterate args) ;;
    deleteSubdomain_loop subdomains.

(** ** [deleteSite] *)

(** [Object.keys(v).length] *)
Definition keys_length (v : value) : exn + nat :=
  match v with
  | VUndef | VNull =>
      inl (TypeError "Cannot convert undefined or null to object")
  | VObj ms => inr (List.length ms)
  | VArr l => inr (List.length l)
  | VStr s => inr (String.length s)
  | VBool _ | VNum _ => inr 0
  end.

Definition delete_site_request (uuid : value) : request :=
  Request (API_BASE E ++ "/delete-site") (VObj [("site_uuid", uuid)]).

Definition deleteSite_attempt (uuid : value) : M unit :=
  try_catch
    (response <- fetch (delete_site_request uuid) ;;
     (if negb (ok response) then
        throw (Error ("Failed to delete site (Status: "
                        ++ to_string (VNum (status response)) ++ ")"))
      else ret tt) ;;
     data <- json response ;;
     result <- deleteSubdomain uuid ;;
     (if result then
        n <- lift (keys_length data) ;;
        if Nat.eqb n 0 then
          console_log ("Site ID: " ++ dq ++ to_string uuid ++ dq
                         ++ " should be deleted.")
        else ret tt
      else ret tt) ;;
     console_log ("Site ID: " ++ dq ++ to_string uuid ++ dq
                    ++ " may already be deleted!"))
    (fun error => console_error ("Error deleting site: " ++ message error)).

Fixpoint deleteSite_loop (args : list value) : M unit :=
  match args with
  | [] => ret tt
  | uuid :: rest => deleteSite_attempt uuid ;; deleteSite_loop rest
  end.

Definition deleteSite (args : list value) : M unit :=
  if Nat.ltb (List.length args) 1 then
    console_log "Usage: site:delete <siteUUID>"
  else deleteSite_loop args.

(** ** [createApp] *)

(** [!d || !d.k], the test made on each answer. *)
Definition lacks (d : value) (k : string) : exn + bool :=
  if negb (truthy d) then inr true
  else match get d k with
       | inl e => inl e
       | inr v => inr (negb (truthy v))
       end.

(** The value of a parameter that has a default. *)
Definition or_default (given : option string) (default : string) : string :=
  match given with
  | Some s => s
  | None => default
  end.

Definition default_url : string :=
  "https://dev-center.puter.com/coming-soon.html".

Definition create_app_request (name description url : string) : request :=
  Request drivers_url
    (driver_call "puter-apps" "create"
       (VObj [("object",
               VObj [("name", VStr name);
                     ("index_url", VStr url);
                     ("title", VStr name);
                     ("description", VStr description);
                     ("maximize_on_start", VBool false);
                     ("background", VBool false);
                     ("metadata", VObj [("window_resizable", VBool true)])]);
              ("options", VObj [("dedupe_name", VBool true)])])).

Definition mkdir_request (username appUid : value) (uid : string) : request :=
  Request (API_BASE E ++ "/mkdir")
    (VObj [("parent",
            VStr ("/" ++ to_string username ++ "/AppData/" ++ to_string appUid));
           ("path", VStr ("app-" ++ uid));
           ("overwrite", VBool true);
           ("dedupe_name", VBool false);
           ("create_missing_parents", VBool true)]).

Definition create_subdomain_request (subdomain root_dir : string) : request :=
  Request drivers_url
    (driver_call "puter-subdomains" "create"
       (VObj [("object",
               VObj [("subdomain", VStr subdomain);
                     ("root_dir", VStr root_dir)])])).

Definition update_app_request (appName : value) (index_url title : string)
  : request :=
  Request drivers_url
    (driver_call "puter-apps" "update"
       (VObj [("id", VObj [("name", appName)]);
              ("object",
               VObj [("index_url", VStr index_url); ("title", VStr title)])])).

(** [uid.split('-')[0]] *)
Definition first_segment (uid : string) : string :=
  hd EmptyString (split "-"%char uid).

(** [createApp(name, description = '', url = default_url)]; [None] is an
    omitted argument. *)
Definition createApp (name : string) (description url : option string)
  : M unit :=
  let description := or_default description EmptyString in
  let url := or_default url default_url in
  console_log ("Creating app: " ++ dq ++ name ++ dq ++ "..." ++ nl) ;;
  try_catch
    ((* Step 1: Create the app *)
     createAppResponse <- fetch (create_app_request name description url) ;;
     createAppData <- json createAppResponse ;;
     failed <- lift (lacks createAppData "success") ;;
     if failed : bool then
       console_error ("Failed to create app " ++ dq ++ name ++ dq)
     else
       result <- lift (get createAppData "result") ;;
       appUid <- lift (get result "uid") ;;
       appName <- lift (get result "name") ;;
       owner <- lift (get result "owner") ;;
       username <- lift (get owner "username") ;;
       console_log ("App " ++ dq ++ name ++ dq ++ " created successfully!") ;;
       console_log ("AppName: " ++ to_string appName ++ nl
                      ++ "UID: " ++ to_string appUid ++ nl
                      ++ "Username: " ++ to_string username) ;;
       (* Step 2: Create a directory for the app *)
       let uid := randomUUID E in
       console_log ("Creating directory for app " ++ dq ++ name ++ dq
                      ++ " with UID: " ++ dq ++ uid ++ dq ++ " ..." ++ nl) ;;
       createDirResponse <- fetch (mkdir_request username appUid uid) ;;
       createDirData <- json createDirResponse ;;
       failed <- lift (lacks createDirData "uid") ;;
       if failed : bool then
         console_error ("Failed to create directory for app " ++ dq ++ name ++ dq)
       else
         dirUid <- lift (get createDirData "uid") ;;
         console_log "Directory created successfully!" ;;
         console_log ("Directory UID: " ++ to_string dirUid) ;;
         (* Step 3: Create a subdomain for the app *)
         let subdomainName := name ++ "-" ++ first_segment uid in
         console_log ("Creating subdomain: " ++ dq ++ subdomainName ++ dq
                        ++ "..." ++ nl) ;;
         dirName <- lift (get createDirData "name") ;;
         let root_dir := "/" ++ to_string username ++ "/AppData/"
                             ++ to_string appUid ++ "/" ++ to_string dirName in
         createSubdomainResponse <-
           fetch (create_subdomain_request subdomainName root_dir) ;;
         createSubdomainData <- json createSubdomainResponse ;;
         failed <- lift (lacks createSubdomainData "success") ;;
         if failed : bool then
           console_error ("Failed to create subdomain: " ++ dq ++ subdomainName ++ dq)
         else
           console_log "Subdomain created successfully!" ;;
           console_log ("Subdomain: " ++ subdomainName) ;;
           (* Step 4: Update the app's index_url to point to the subdomain *)
           console_log ("Set " ++ dq ++ subdomainName ++ dq
                          ++ " as a subdomain for app: " ++ dq
                          ++ to_string appName ++ dq ++ "..." ++ nl) ;;
           let index_url := "https://" ++ to_string appName ++ ".puter.site" in
           updateAppResponse <-
             fetch (update_app_request appName index_url name) ;;
           updateAppData <- json updateAppResponse ;;
           failed <- lift (lacks updateAppData "success") ;;
           if failed : bool then
             console_error ("Failed to update app " ++ dq ++ name ++ dq
                              ++ " with new subdomain")
           else
             console_log "App deployed successfully at:" ;;
             console_log ("https://" ++ subdomainName ++ ".puter.site"))
    (fun error =>
       console_error ("Failed to create app " ++ dq ++ name ++ dq ++ "." ++ nl
                        ++ "Error: " ++ message error)).

(** ** [deleteApp] *)

Definition app_request (method name : string) : request :=
  Request drivers_url
    (driver_call "puter-apps" method (VObj [("id", VObj [("name", VStr name)])])).

Definition rule : string := "----------------------------------------".

(** [deleteApp(name)]: the value returned is [false] on the early return
    and [undefined] on every other path. *)
Definition deleteApp (name : string) : M value :=
  console_log ("Checking app " ++ dq ++ name ++ dq ++ "..." ++ nl) ;;
  try_catch
    ((* Step 1: Read app details *)
     readResponse <- fetch (app_request "read" name) ;;
     readData <- json readResponse ;;
     success <- lift (get readData "success") ;;
     result <- lift (get readData "result") ;;
     if negb (truthy success) || negb (truthy result) then
       console_log ("App " ++ dq ++ name ++ dq ++ " not found.") ;;
       ret (VBool false)
     else
       console_log (nl ++ "App Details:") ;;
       console_log rule ;;
       v <- lift (get result "name") ;;
       console_log ("Name: " ++ to_string v) ;;
       v <- lift (get result "title") ;;
       console_log ("Title: " ++ to_string v) ;;
       v <- lift (get result "created_at") ;;
       console_log ("Created: " ++ toLocaleString E v) ;;
       v <- lift (get result "index_url") ;;
       console_log ("URL: " ++ to_string v) ;;
       console_log rule ;;
       (* Step 2: Delete the app *)
       console_log ("Deleting app " ++ dq ++ name ++ dq ++ "...") ;;
       deleteResponse <- fetch (app_request "delete" name) ;;
       deleteData <- json deleteResponse ;;
       success <- lift (get deleteData "success") ;;
       (if truthy success then
          console_log ("App " ++ dq ++ name ++ dq ++ " deleted successfully!")
        else
          console_error ("Failed to delete app " ++ dq ++ name ++ dq ++ "." ++ nl
                           ++ "P.S. You may need to provide the 'name' not the 'title'.")) ;;
       ret VUndef)
    (fun error =>
       console_error ("Failed to delete app " ++ dq ++ name ++ dq ++ "." ++ nl
                        ++ "Error: " ++ message error) ;;
       ret VUndef).

(** ** [getSubdomains], [hostDirectory] and [deploySite] *)

Definition select_subdomains_request (args : value) : request :=
  Request drivers_url (driver_call "puter-subdomains" "select" args).

(** [getSubdomains(args = {})] *)
Definition getSubdomains (args : value) : M value :=
  let args := match args with VUndef => VObj [] | _ => args end in
  response <- fetch (select_subdomains_request args) ;;
  if negb (ok response) then throw (Error "Failed to fetch subdomains.")
  else json response.

(** [hostDirectory(subdomain, remoteDir)] *)
Definition hostDirectory (subdomain remoteDir : string) : M value :=
  response <- fetch (create_subdomain_request subdomain remoteDir) ;;
  if negb (ok response) then throw (Error "Failed to host directory.")
  else
    data <- json response ;;
    lift (get data "result").

(** [subdomains.find(sd => sd.subdomain === subdomain)] *)
Fixpoint find_subdomain (subdomain : string) (subdomains : list value)
  : exn + value :=
  match subdomains with
  | [] => inr VUndef
  | sd :: rest =>
      match get sd "subdomain" with
      | inl e => inl e
      | inr name =>
          if str_eq name subdomain then inr sd
          else find_subdomain subdomain rest
      end
  end.

(** [args.find(arg => arg.startsWith('--subdomain='))?.split('=')[1]] *)
Definition subdomain_option (args : list string) : option string :=
  match find (startsWith "--subdomain=") args with
  | Some arg => nth_error (split "="%char arg) 1
  | None => None
  end.

(** The directory to deploy: [args[1]] resolved against the current
    directory when it is given and is not a flag. *)
Definition remote_dir (args : list string) : string :=
  match nth_error args 1 with
  | Some a =>
      if negb (a =? EmptyString) then
        if startsWith "--" a then getCurrentDirectory E
        else resolvePath E (getCurrentDirectory E) a
      else getCurrentDirectory E
  | None => getCurrentDirectory E
  end.

(** Step 1 of [deploySite]: the subdomain asked for. *)
Definition candidate (args : list string) : string :=
  let appName := nth 0 args EmptyString in
  match subdomain_option args with
  | Some o => if negb (o =? EmptyString) then o else appName
  | None => appName
  end.

(** Step 3 of [deploySite], which every path that does not [return]
    reaches. *)
Definition deploySite_host (appName subdomain remoteDir : string) : M unit :=
  console_log ("Hosting app " ++ dq ++ appName ++ dq ++ " under subdomain "
                 ++ dq ++ subdomain ++ dq ++ "...") ;;
  site <- hostDirectory subdomain remoteDir ;;
  console_log ("App " ++ dq ++ appName ++ dq ++ " deployed successfully!") ;;
  hosted <- lift (get site "subdomain") ;;
  console_log ("Website hosted at: https://" ++ to_string hosted ++ ".puter.site").

Definition deploySite (args : list string) : M unit :=
  if Nat.ltb (List.length args) 1 then
    console_log "Usage: deploy <name> [<remote_dir>] [--subdomain=<subdomain>]" ;;
    console_log "Example: deploy myapp" ;;
    console_log "Example: deploy myapp ./myapp" ;;
    console_log "Example: deploy myapp --subdomain=myapp"
  else
    let appName := nth 0 args EmptyString in
    let remoteDir := remote_dir args in
    console_log ("Deploying app " ++ dq ++ appName ++ dq ++ " from " ++ dq
                   ++ remoteDir ++ dq ++ "..." ++ nl) ;;
    try_catch
      ((* Step 1: Determine the subdomain *)
       let subdomain := candidate args in
       (* Step 2: Check if the subdomain already exists *)
       data <- getSubdomains VUndef ;;
       success <- lift (get data "success") ;;
       subdomains <- lift (get data "result") ;;
       if negb (truthy success) || negb (isArray subdomains) then
         throw (Error "Failed to fetch subdomains")
       else
         subdomainObj <- lift (find_subdomain subdomain (elements subdomains)) ;;
         if truthy subdomainObj then
           owner <- lift (get subdomainObj "owner") ;;
           username <- lift (get owner "username") ;;
           console_error ("The subdomain " ++ dq ++ subdomain ++ dq
                            ++ " is already in use and owned by: " ++ dq
                            ++ to_string username ++ dq) ;;
           if str_eq username (getCurrentUserName E) then
             root_dir <- lift (get subdomainObj "root_dir") ;;
             path <- lift (get_opt root_dir "path") ;;
             console_log ("It's yours, and linked to: " ++ to_string path) ;;
             if str_eq path remoteDir then
               console_log "Which is already the selected directory, and deployed at:" ;;
               console_log ("https://" ++ subdomain ++ ".puter.site")
             else
               console_log ("However, It's linked to different directory at: "
                              ++ to_string path) ;;
               console_log "We'll try to unlink this subdomain from that directory..." ;;
               uid <- lift (get subdomainObj "uid") ;;
               result <- deleteSubdomain uid ;;
               if result : bool then
                 console_log "Looks like this subdomain is free again, please try again."
               else
                 console_log "Could not release this subdomain." ;;
                 deploySite_host appName subdomain remoteDir
           else deploySite_host appName subdomain remoteDir
         else
           console_log ("The subdomain: " ++ dq ++ subdomain ++ dq
                          ++ " is already taken, so let's generate a new random one:") ;;
           let subdomain := generateAppName E in
           console_log ("New generated subdomain: " ++ dq ++ subdomain ++ dq
                          ++ " will be used.") ;;
           deploySite_host appName subdomain remoteDir)
      (fun error =>
         console_error "Failed to deploy app." ;;
         console_error ("Error: " ++ message error)).

End Commands.

(** ** Observations of a run *)

Definition returned {A} (m : M A) (w : world) : exn + A := fst (m w).

Definition requests {A} (m : M A) (w : world) : list request :=
  calls (snd (m w)).

Definition printed {A} (m : M A) (w : world) : list (stream * string) :=
  out (snd (m w)).

(** A command is blind to the lines already printed: started with other
    lines it returns the same value after the same requests, and adds
    the same lines. *)
Definition out_blind {A} (m : M A) : Prop :=
  forall c o,
    m (World c o)
    = (fst (m (World c [])),
       World (calls (snd (m (World c []))))
             (o +++ out (snd (m (World c []))))).

(** An answer to a delete call that [deleteSubdomain] takes as a failure:
    a JSON document whose [success] member is missing or falsy. *)
Definition unsuccessful (r : reply) : bool :=
  match r with
  | Arrived {| payload := Some data |} =>
      match get data "success" with
      | inr s => negb (truthy s)
      | inl _ => false
      end
  | _ => false
  end.

(** The requests that create a subdomain, which is what [hostDirectory]
    sends. *)
Definition is_host_call (r : request) : bool :=
  match req_body r with
  | VObj ms =>
      str_eq (lookup "interface" ms) "puter-subdomains"
      && str_eq (lookup "method" ms) "create"
  | _ => false
  end.

Definition host_calls (l : list request) : list request :=
  filter is_host_call l.

(** The delete calls for the first [n] identifiers of a list. *)
Definition attempts (E : Env) (n : nat) (ids : list value) : list request :=
  map (delete_subdomain_request E) (firstn n ids).

(** The reading of [deleteSubdomain] as leaving after its first turn:
    of the identifiers given, only the first gets a delete call. *)
Definition returns_after_first (E : Env) (ids : list string) (w : world)
  : Prop :=
  requests (deleteSubdomain E (VArr (map VStr ids))) w
  = (calls w +++ attempts E 1 (map VStr ids)).

(** [deploySite] got the list of subdomains: the select call was answered
    with [{ success, result: subdomains }]. *)
Definition subdomains_fetched (E : Env) (w : world) (subdomains : list value)
  : Prop :=
  exists st data success,
    server E (calls w +++ [select_subdomains_request E (VObj [])])
      = Arrived (Response true st (Some data))
    /\ get data "success" = inr success
    /\ truthy success = true
    /\ get data "result" = inr (VArr subdomains).

(** The entry of the list that binds the name. *)
Definition bound_by (subdomains : list value) (name : string) (sd : value)
  : Prop :=
  find_subdomain name subdomains = inr sd /\ truthy sd = true.

(** No entry of the list binds the name. *)
Definition free_in (subdomains : list value) (name : string) : Prop :=
  find_subdomain name subdomains = inr VUndef.

(** [sd.owner['username']] and [sd.root_dir?.path] *)
Definition owner_of (sd username : value) : Prop :=
  exists owner, get sd "owner" = inr owner /\ get owner "username" = inr username.

Definition directory_of (sd path : value) : Prop :=
  exists root_dir,
    get sd "root_dir" = inr root_dir /\ get_opt root_dir "path" = inr path.

(** The call [deleteSubdomain(uid)] made after the requests of [history]
    returns [false]. *)
Definition unbind_fails (E : Env) (history : list request) (uid : value)
  : Prop :=
  returned (deleteSubdomain E uid) (World history []) = inr false.

(** The answers that let [createApp] pass a step.  Step 1: the app is
    created and the answer carries its uid, its canonical name and the
    name of its owner. *)
Definition app_created (E : Env) (history : list request)
           (appUid appName username : value) : Prop :=
  exists o st data result owner,
    server E history = Arrived (Response o st (Some data))
    /\ lacks data "success" = inr false
    /\ get data "result" = inr result
    /\ get result "uid" = inr appUid
    /\ get result "name" = inr appName
    /\ get result "owner" = inr owner
    /\ get owner "username" = inr username.

(** Step 2 fails: the answer is missing ([null]) or has no [uid]. *)
Definition directory_refused (E : Env) (history : list request) : Prop :=
  exists o st data,
    server E history = Arrived (Response o st (Some data))
    /\ lacks data "uid" = inr true.

(** Step 2 succeeds, and the directory is called [dirName]. *)
Definition directory_created (E : Env) (history : list request)
           (dirName : value) : Prop :=
  exists o st data,
    server E history = Arrived (Response o st (Some data))
    /\ lacks data "uid" = inr false
    /\ get data "name" = inr dirName.

(** Steps 3 and 4 succeed: the answer has a truthy [success]. *)
Definition granted (E : Env) (history : list request) : Prop :=
  exists o st data,
    server E history = Arrived (Response o st (Some data))
    /\ lacks data "success" = inr false.

(** The read call of [deleteApp] is answered with a falsy [success] or
    without a [result]. *)
Definition app_missing (E : Env) (history : list request) : Prop :=
  exists o st data success result,
    server E history = Arrived (Response o st (Some data))
    /\ get data "success" = inr success
    /\ get data "result" = inr result
    /\ truthy success && truthy result = false.

(** ** Sample environments *)

Definition answer (v : value) : reply := Arrived (Response true 200 (Some v)).

Definition sample_env (srv : list request -> reply) : Env :=
  {| API_BASE := "https://api.puter.com";
     server := srv;
     getCurrentUserName := "alice";
     getCurrentDirectory := "/alice/site";
     resolvePath := fun base p => base ++ "/" ++ p;
     generateAppName := "brave-otter-1234";
     randomUUID := "1a2b3c4d-0000-4000-8000-000000000000";
     toLocaleString := to_string;
     str_lt_one := fun _ => false |}.

Definition start : world := World [] [].

(** An API that gives the answers of a script, one per request. *)
Definition scripted (answers : list reply) : list request -> reply :=
  fun history => nth (List.length history - 1) answers (Rejected "no answer").

Definition granted_reply : reply := answer (VObj [("success", VBool true)]).

Definition not_found_reply : reply :=
  answer (VObj [("success", VBool false);
                ("error", VObj [("code", VStr "entity_not_found")])]).

(** An API that grants every request. *)
Definition granting : Env := sample_env (fun _ => granted_reply).

(** The first deletion is granted, the second refused. *)
Definition second_refused : Env :=
  sample_env (scripted [granted_reply; not_found_reply; granted_reply]).

(** A subdomain entry as the select call lists it. *)
Definition entry (uid subdomain username path : string) : value :=
  VObj [("uid", VStr uid);
        ("subdomain", VStr subdomain);
        ("owner", VObj [("username", VStr username)]);
        ("root_dir", VObj [("path", VStr path)])].

Definition listing (subdomains : list value) : reply :=
  answer (VObj [("success", VBool true); ("result", VArr subdomains)]).

Definition hosted_reply (subdomain : string) : reply :=
  answer (VObj [("success", VBool true);
                ("result", VObj [("subdomain", VStr subdomain)])]).

Definition in_use_reply : reply :=
  answer (VObj [("success", VBool false);
                ("error", VObj [("code", VStr "subdomain_in_use")])]).

(** The user has no subdomain yet; the API hosts what it is asked to. *)
Definition nothing_bound : Env :=
  sample_env (scripted [listing []; hosted_reply "brave-otter-1234"]).

(** [myapp] belongs to bob. *)
Definition bound_by_other : Env :=
  sample_env (scripted [listing [entry "sd-1" "myapp" "bob" "/bob/www"];
                        in_use_reply]).

(** [myapp] belongs to alice and points at the current directory. *)
Definition bound_here : Env :=
  sample_env (scripted [listing [entry "sd-1" "myapp" "alice" "/alice/site"]]).

(** [myapp] belongs to alice, points elsewhere, and is not released. *)
Definition bound_elsewhere : Env :=
  sample_env (scripted [listing [entry "sd-1" "myapp" "alice" "/alice/old"];
                        not_found_reply;
                        in_use_reply]).

Definition created_reply (name : string) : reply :=
  answer (VObj [("success", VBool true);
                ("result", VObj [("uid", VStr "app-7");
                                 ("name", VStr name);
                                 ("owner", VObj [("username", VStr "alice")])])]).

Definition directory_reply : reply :=
  answer (VObj [("uid", VStr "dir-9");
                ("name", VStr "app-1a2b3c4d-0000-4000-8000-000000000000")]).

(** The directory of the new app cannot be created. *)
Definition no_directory : Env :=
  sample_env (scripted [created_reply "app"; answer (VObj [])]).

(** The four steps of [createApp] succeed, the app keeping its name. *)
Definition all_granted : Env :=
  sample_env (scripted [created_reply "app"; directory_reply;
                        granted_reply; granted_reply]).

(** The four steps succeed, and the canonical name the API chose for the
    app ends with the first segment of the uuid drawn afterwards. *)
Definition coinciding : Env :=
  sample_env (scripted [created_reply "app-1a2b3c4d"; directory_reply;
                        granted_reply; granted_reply]).

(** The app to delete does not exist. *)
Definition no_such_app : Env :=
  sample_env (scripted [answer (VObj [("success", VBool false)])]).

(** ** [listApps] and [listSubdomains] *)

(** What the two listing commands take from outside besides [Env]:
    [formatDate] of [utils.js], the date formatting of the runtime, and
    [cli-table3], whose [toString] gets the options the table was built
    with and the rows pushed into it. *)
Record Display : Type := {
  formatDate : value -> string;
  toLocaleDateString : value -> string;   (* new Date(v).toLocaleDateString() *)
  table_toString : value -> list (list value) -> string
}.

(** [s] has an occurrence of the character [c]. *)
Fixpoint has_char (c : ascii) (s : string) : bool :=
  match s with
  | EmptyString => false
  | String a rest => Ascii.eqb a c || has_char c rest
  end.

(** [s.split(sep)] for a separator of one character or more: [skip]
    counts the characters of a separator just met that are still to be
    passed over. *)
Fixpoint split_from (sep : string) (skip : nat) (s : string) : list string :=
  match s with
  | EmptyString => [EmptyString]
  | String a rest =>
      match skip with
      | S k => split_from sep k rest
      | O =>
          if String.prefix sep s then
            EmptyString :: split_from sep (String.length sep - 1) rest
          else match split_from sep 0 rest with
               | [] => [String a EmptyString]
               | piece :: pieces => String a piece :: pieces
               end
      end
  end.

Definition split_on (sep : string) (s : string) : list string :=
  split_from sep 0 s.

(** [a[i]] for an array of strings. *)
Definition item (i : nat) (a : list string) : value :=
  match nth_error a i with
  | Some s => VStr s
  | None => VUndef
  end.

(** [v.split(sep)]: only a string has the method. *)
Definition split_value (v : value) (sep : string) : exn + list string :=
  match v with
  | VStr s => inr (split_on sep s)
  | VUndef | VNull =>
      inl (TypeError ("Cannot read properties of " ++ describe v
                        ++ " (reading 'split')"))
  | _ => inl (TypeError "split is not a function")
  end.

(** The subdomain column of [listApps]:
    [index_url ? index_url.split('.')[0].split('//')[1] : '<NO_URL>'] *)
Definition subdomain_cell (index_url : value) : exn + value :=
  if truthy index_url then
    match split_value index_url "." with
    | inl e => inl e
    | inr pieces =>
        match split_value (item 0 pieces) "//" with
        | inl e => inl e
        | inr halves => inr (item 1 halves)
        end
    end
  else inr (VStr "<NO_URL>").

(** The directory column of [listSubdomains]:
    [domain?.root_dir?.path.split('/').pop()], for a [domain] that is
    neither [null] nor [undefined]. *)
Definition directory_cell (root_dir : value) : exn + value :=
  match root_dir with
  | VUndef | VNull => inr VUndef
  | _ =>
      match get root_dir "path" with
      | inl e => inl e
      | inr path =>
          match split_value path "/" with
          | inl e => inl e
          | inr pieces => inr (item (List.length pieces - 1) pieces)
          end
      end
  end.

Definition bind_pure {A B} (r : exn + A) (k : A -> exn + B) : exn + B :=
  match r with
  | inl e => inl e
  | inr a => k a
  end.

(** [for (const x of v)], the error naming the expression iterated. *)
Definition iterate_as (what : string) (v : value) : exn + list value :=
  match v with
  | VArr l => inr l
  | VStr s => inr (chars s)
  | _ => inl (TypeError (what ++ " is not iterable"))
  end.

Section Listings.

Variable E : Env.
Variable D : Display.

Definition select_apps_request (statsPeriod iconSize : value) : request :=
  Request (drivers_url E)
    (driver_call "puter-apps" "select"
       (VObj [("params", VObj [("icon_size", iconSize)]);
              ("predicate", VArr [VStr "user-can-edit"]);
              ("stats_period", statsPeriod)])).

Definition apps_table : value :=
  VObj [("head", VArr [VStr "Title"; VStr "Name"; VStr "Created";
                       VStr "Subdomain"; VStr "#Open"; VStr "#User"]);
        ("colWidths", VArr [VNum 20; VNum 30; VNum 25; VNum 35; VNum 8; VNum 8]);
        ("wordWrap", VBool false)].

(** The row pushed for one app. *)
Definition app_row (app : value) : exn + list value :=
  bind_pure (get app "title") (fun title =>
  bind_pure (get app "name") (fun name =>
  bind_pure (get app "created_at") (fun created_at =>
  bind_pure (get app "index_url") (fun index_url =>
  bind_pure (subdomain_cell index_url) (fun subdomain =>
  bind_pure (get app "stats") (fun stats =>
  bind_pure (get stats "open_count") (fun open_count =>
  bind_pure (get stats "user_count") (fun user_count =>
  inr [title; name; VStr (formatDate D created_at); subdomain;
       open_count; user_count])))))))).

(** The rows pushed by a loop, as long as none throws. *)
Fixpoint table_rows (row : value -> exn + list value) (items : list value)
  : exn + list (list value) :=
  match items with
  | [] => inr []
  | x :: rest =>
      bind_pure (row x) (fun r =>
      bind_pure (table_rows row rest) (fun rs => inr (r :: rs)))
  end.

(** The parameter [{ statsPeriod = 'all', iconSize = 64 } = {}]. *)
Definition option_or (options : value) (k : string) (default : value)
  : exn + value :=
  match get options k with
  | inl e => inl e
  | inr VUndef => inr default
  | inr v => inr v
  end.

Definition listApps (options : value) : M unit :=
  let options := match options with VUndef => VObj [] | _ => options end in
  statsPeriod <- lift (option_or options "statsPeriod" (VStr "all")) ;;
  iconSize <- lift (option_or options "iconSize" (VNum 64)) ;;
  console_log ("Listing of apps during period " ++ dq ++ to_string statsPeriod
                 ++ dq ++ ":" ++ nl) ;;
  try_catch
    (response <- fetch E (select_apps_request statsPeriod iconSize) ;;
     data <- json response ;;
     result <- (if truthy data then lift (get data "result") else ret VUndef) ;;
     if truthy data && truthy result then
       apps <- lift (iterate_as "data.result" result) ;;
       rows <- lift (table_rows app_row apps) ;;
       console_log (table_toString D apps_table rows) ;;
       count <- lift (get result "length") ;;
       console_log ("You have in total: " ++ to_string count ++ " application(s).")
     else
       console_error "Unable to list your apps. Please check your credentials.")
    (fun error =>
       console_error ("Failed to list apps. Error: " ++ message error)).

Definition subdomains_table : value :=
  VObj [("head", VArr [VStr "UID"; VStr "Subdomain"; VStr "Created";
                       VStr "Protected"; VStr "Directory"]);
        ("style", VObj [("head", VArr []); ("border", VArr [])])].

(** The row pushed for one subdomain. *)
Definition subdomain_row (domain : value) : exn + list value :=
  bind_pure (get domain "created_at") (fun created_at =>
  bind_pure (get domain "uid") (fun uid =>
  bind_pure (get domain "subdomain") (fun subdomain =>
  bind_pure (get domain "protected") (fun protected =>
  bind_pure (get domain "root_dir") (fun root_dir =>
  bind_pure (directory_cell root_dir) (fun directory =>
  inr [uid; VStr (to_string subdomain ++ ".puter.site");
       VStr (toLocaleDateString D created_at);
       VStr (if truthy protected then "Yes" else "No");
       directory])))))).

(** [listSubdomains(args = {})]: the only command whose [catch] throws
    the error again. *)
Definition listSubdomains (args : value) : M unit :=
  let args := match args with VUndef => VObj [] | _ => args end in
  try_catch
    (data <- getSubdomains E args ;;
     success <- lift (get data "success") ;;
     result <- lift (get data "result") ;;
     if negb (truthy success) || negb (isArray result) then
       throw (Error "Failed to fetch subdomains")
     else
       rows <- lift (table_rows subdomain_row (elements result)) ;;
       if Nat.eqb (List.length (elements result)) 0 then
         console_log "No subdomains found"
       else
         console_log (nl ++ "Your Subdomains:") ;;
         console_log (table_toString D subdomains_table rows) ;;
         console_log ("Total subdomains: "
                        ++ to_string (VNum (Z.of_nat (List.length (elements result))))))
    (fun error =>
       console_error ("Error listing subdomains: " ++ message error) ;;
       throw error).

End Listings.

(** The requests sent to the delete-site endpoint. *)
Definition is_delete_site (E : Env) (r : request) : bool :=
  req_url r =? API_BASE E ++ "/delete-site".

(** An API that cannot be reached. *)
Definition unreachable : Env := sample_env (fun _ => Rejected "network down").

(** A display that prints dates as they are and tables as their size. *)
Definition plain_display : Display :=
  {| formatDate := to_string;
     toLocaleDateString := to_string;
     table_toString := fun _ rows =>
       "table of " ++ to_string (VNum (Z.of_nat (List.length rows))) |}.

(** The delete-site endpoint does not know the site. *)
Definition site_unknown : Env :=
  sample_env (scripted [Arrived (Response false 404 None)]).

(** The site is deleted, the subdomain of the same name is not found. *)
Definition site_without_subdomain : Env :=
  sample_env (scripted [answer (VObj []); not_found_reply]).

(** [myapp] belongs to alice, points elsewhere, and every deletion the
    API is asked for is granted. *)
Definition released : Env :=
  sample_env (scripted [listing [entry "sd-1" "myapp" "alice" "/alice/old"];
                        granted_reply; granted_reply; granted_reply;
                        granted_reply]).

(** The API refuses to create the app. *)
Definition app_refused : Env :=
  sample_env (scripted [answer (VObj [("success", VBool false)])]).

(** The app and its directory are created, the subdomain is refused. *)
Definition subdomain_refused : Env :=
  sample_env (scripted [created_reply "app"; directory_reply; in_use_reply]).

(** The app exists and the API deletes it. *)
Definition app_deleted : Env :=
  sample_env (scripted [created_reply "app"; granted_reply]).

Definition app_entry (title name index_url : string) : value :=
  VObj [("title", VStr title); ("name", VStr name);
        ("created_at", VStr "2025-01-01");
        ("index_url", VStr index_url);
        ("stats", VObj [("open_count", VNum 3); ("user_count", VNum 2)])].

(** The user has two apps. *)
Definition two_apps : Env :=
  sample_env (scripted
    [answer (VObj [("success", VBool true);
                   ("result",
                    VArr [app_entry "Blog" "blog" "https://blog.puter.site";
                          app_entry "Shop" "shop" "https://shop.puter.site"])])]).

(** The API answers without a result. *)
Definition no_result : Env :=
  sample_env (scripted [answer (VObj [("success", VBool false)])]).

(** The user has no subdomain, and has one. *)
Definition no_subdomains : Env := sample_env (scripted [listing []]).

Definition one_subdomain : Env :=
  sample_env (scripted [listing [entry "sd-1" "myapp" "alice" "/alice/site"]]).

(** A command that lets no exception escape. *)
Definition never_throws {A} (m : M A) : Prop :=
  forall w, exists a w', m w = (inr a, w').

(** * Properties *)

(** Unfolds the monad, one layer of a command at a time. *)
Ltac step :=
  unfold returned, requests, printed, bind, try_catch, lift, ret, throw,
    fetch, json, console_log, console_error in *;
  cbn [fst snd calls out payload ok status] in *.

(** ** Strings *)

Lemma length_append (a b : string) :
  String.length (a ++ b) = String.length a + String.length b.
Proof. induction a as [| c a IH]; cbn; [reflexivity | now rewrite IH]. Qed.

Lemma string_append_assoc (a b c : string) : (a ++ b) ++ c = a ++ b ++ c.
Proof. induction a as [| x a IH]; cbn; [reflexivity | now rewrite IH]. Qed.

Lemma append_inv_head (p a b : string) : p ++ a = p ++ b -> a = b.
Proof. induction p as [| c p IH]; cbn; intros H; [assumption |]. injection H; auto. Qed.

Lemma append_inv_tail (s : string) : forall a b, a ++ s = b ++ s -> a = b.
Proof.
  induction a as [| c a IH]; intros [| d b] H; cbn in H.
  - reflexivity.
  - apply (f_equal String.length) in H. cbn in H. rewrite length_append in H. lia.
  - apply (f_equal String.length) in H. cbn in H. rewrite length_append in H. lia.
  - injection H as -> H. f_equal. now apply IH.
Qed.

(** Two site URLs are equal exactly when their subdomains are. *)
Lemma site_url_inj (a b : string) :
  "https://" ++ a ++ ".puter.site" = "https://" ++ b ++ ".puter.site" <-> a = b.
Proof.
  split; [| now intros ->].
  intros H. apply append_inv_head in H. now apply append_inv_tail in H.
Qed.

Lemma append_suffix_neq (a : string) (c : ascii) (b : string) :
  a <> a ++ String c b.
Proof.
  intros H. apply (f_equal String.length) in H.
  rewrite length_append in H. cbn in H. lia.
Qed.

Lemma get_opt_total (v : value) (k : string) : exists x, get_opt v k = inr x.
Proof. destruct v; cbn; eauto. Qed.

Section DeleteSubdomain.

Variable E : Env.

(** One turn of the loop issues exactly one delete call, for its
    identifier, and makes the function return (with [false]) exactly when
    the answer is unsuccessful. *)
Lemma deleteSubdomain_attempt_spec (subdomainId : value) (w : world) :
  requests (deleteSubdomain_attempt E subdomainId) w
    = (calls w +++ [delete_subdomain_request E subdomainId])
  /\ returned (deleteSubdomain_attempt E subdomainId) w
    = inr (if unsuccessful
                (server E (calls w +++ [delete_subdomain_request E subdomainId]))
           then Some false else None).
Proof.
  unfold deleteSubdomain_attempt, unsuccessful. step.
  destruct (server E _) as [why | [o st [data |]]]; cbn; auto.
  destruct data; cbn; auto;
    repeat match goal with
           | |- context [if ?b then _ else _] => destruct b; cbn; auto
           | |- context [match get_opt ?v ?k with _ => _ end] =>
               destruct (get_opt_total v k) as [? ->]; cbn; auto
           end.
Qed.

Lemma deleteSubdomain_loop_cons (subdomainId : value) (rest : list value)
      (w : world) :
  exists w',
    calls w' = (calls w +++ [delete_subdomain_request E subdomainId])
    /\ deleteSubdomain_loop E (subdomainId :: rest) w
       = if unsuccessful (server E (calls w'))
         then (inr false, w')
         else deleteSubdomain_loop E rest w'.
Proof.
  destruct (deleteSubdomain_attempt_spec subdomainId w) as [Hc Hr].
  unfold requests, returned in *.
  cbn [deleteSubdomain_loop]. unfold bind at 1.
  destruct (deleteSubdomain_attempt E subdomainId w) as [r w'].
  cbn [fst snd] in *. subst r. exists w'. split; [assumption |].
  rewrite Hc. destruct (unsuccessful _); reflexivity.
Qed.

(** The loop walks the identifiers in order and leaves at the first
    unsuccessful answer. *)
Lemma deleteSubdomain_loop_stops (k : nat) :
  forall (ids : list value) (w : world),
    k < List.length ids ->
    (forall j, j < k ->
       unsuccessful (server E (calls w +++ attempts E (S j) ids)) = false) ->
    unsuccessful (server E (calls w +++ attempts E (S k) ids)) = true ->
    deleteSubdomain_loop E ids w
      = (inr false, World (calls w +++ attempts E (S k) ids)
                          (out (snd (deleteSubdomain_loop E ids w)))).
Proof.
  induction k as [| k IH]; intros [| subdomainId rest] w Hk Hbefore Hat;
    cbn [List.length] in Hk; try lia.
  - destruct (deleteSubdomain_loop_cons subdomainId rest w) as (w' & Hc & ->).
    unfold attempts in *. cbn [firstn map] in *.
    rewrite <- Hc in *. rewrite Hat. destruct w'; reflexivity.
  - destruct (deleteSubdomain_loop_cons subdomainId rest w) as (w' & Hc & ->).
    pose proof (Hbefore 0 ltac:(lia)) as H0.
    unfold attempts in H0. cbn [firstn map] in H0.
    rewrite <- Hc in H0. rewrite H0.
    assert (Hshift : forall n,
               (calls w' +++ attempts E n rest)
               = (calls w +++ attempts E (S n) (subdomainId :: rest))).
    { intros n. rewrite Hc. unfold attempts. cbn [firstn map].
      rewrite <- app_assoc. reflexivity. }
    rewrite (IH rest w') at 1.
    + rewrite Hshift. reflexivity.
    + lia.
    + intros j Hj. rewrite Hshift. apply Hbefore. lia.
    + rewrite Hshift. exact Hat.
Qed.

(** The loop only adds delete calls to the history. *)
Lemma deleteSubdomain_loop_calls (ids : list value) :
  forall w, exists later,
    calls (snd (deleteSubdomain_loop E ids w)) = (calls w +++ later).
Proof.
  induction ids as [| subdomainId rest IH]; intros w.
  - exists []. cbn. now rewrite app_nil_r.
  - destruct (deleteSubdomain_loop_cons subdomainId rest w) as (w' & Hc & ->).
    destruct (unsuccessful _).
    + eexists. cbn. exact Hc.
    + destruct (IH w') as [later Hl]. eexists.
      rewrite Hl, Hc, <- app_assoc. reflexivity.
Qed.

(** Called with a non-empty array, [deleteSubdomain] is its loop. *)
Lemma deleteSubdomain_array (ids : list value) (w : world) :
  ids <> [] ->
  deleteSubdomain E (VArr ids) w = deleteSubdomain_loop E ids w.
Proof.
  intros Hne. unfold deleteSubdomain. step. cbn.
  destruct ids as [| subdomainId rest]; [congruence |].
  cbn [List.length]. destruct (Z.ltb_spec (Z.of_nat (S (List.length rest))) 1);
    [lia | reflexivity].
Qed.

(** Called with a non-empty string, [deleteSubdomain] runs its loop over
    the characters of the string. *)
Lemma deleteSubdomain_string (id : string) (w : world) :
  id <> EmptyString ->
  deleteSubdomain E (VStr id) w = deleteSubdomain_loop E (chars id) w.
Proof.
  intros Hne. unfold deleteSubdomain. step. cbn.
  destruct id as [| c rest]; [congruence |].
  cbn [String.length].
  destruct (Z.ltb_spec (Z.of_nat (S (String.length rest))) 1);
    [lia | reflexivity].
Qed.

(** C4. [deleteSubdomain] attempts the identifiers in list order, and at
    the first attempt whose answer is unsuccessful (position [k], every
    earlier answer not being so) it returns [false]; the delete calls
    issued are those of the identifiers up to that one, none later. *)
Theorem deleteSubdomain_stops_at_first_failure
        (ids : list string) (k : nat) (w : world) :
  k < List.length ids ->
  (forall j, j < k ->
     unsuccessful (server E (calls w +++ attempts E (S j) (map VStr ids)))
       = false) ->
  unsuccessful (server E (calls w +++ attempts E (S k) (map VStr ids)))
    = true ->
  returned (deleteSubdomain E (VArr (map VStr ids))) w = inr false
  /\ requests (deleteSubdomain E (VArr (map VStr ids))) w
     = (calls w +++ attempts E (S k) (map VStr ids)).
Proof.
  intros Hk Hbefore Hat. unfold returned, requests.
  rewrite deleteSubdomain_array by (destruct ids; cbn in *; [lia | discriminate]).
  rewrite (@deleteSubdomain_loop_stops k) by
    (try rewrite length_map; assumption).
  split; reflexivity.
Qed.

(** C3, as amended.  With two identifiers or more, [deleteSubdomain]
    stops after the first one exactly when the first answer is
    unsuccessful, and then returns [false]; otherwise it goes on and the
    next delete call is the one for the second identifier. *)
Theorem deleteSubdomain_goes_on_after_first
        (id1 id2 : string) (rest : list string) (w : world) :
  let args := VArr (map VStr (id1 :: id2 :: rest)) in
  let first := delete_subdomain_request E (VStr id1) in
  let second := delete_subdomain_request E (VStr id2) in
  if unsuccessful (server E (calls w +++ [first]))
  then returned (deleteSubdomain E args) w = inr false
       /\ requests (deleteSubdomain E args) w = (calls w +++ [first])
  else exists later,
      requests (deleteSubdomain E args) w
      = (calls w +++ first :: second :: later).
Proof.
  intros args first second. unfold returned, requests, args.
  rewrite deleteSubdomain_array by discriminate.
  change (map VStr (id1 :: id2 :: rest))
    with (VStr id1 :: map VStr (id2 :: rest)).
  destruct (deleteSubdomain_loop_cons (VStr id1) (map VStr (id2 :: rest)) w)
    as (w1 & Hc1 & ->).
  fold first in Hc1. rewrite Hc1.
  destruct (unsuccessful _).
  - cbn. auto.
  - cbn [map].
    destruct (deleteSubdomain_loop_cons (VStr id2) (map VStr rest) w1)
      as (w2 & Hc2 & ->).
    fold second in Hc2.
    destruct (unsuccessful (server E (calls w2))).
    + exists []. cbn. rewrite Hc2, Hc1, <- app_assoc. reflexivity.
    + destruct (deleteSubdomain_loop_calls (map VStr rest) w2) as [later Hl].
      exists later. rewrite Hl, Hc2, Hc1, <- !app_assoc. reflexivity.
Qed.

End DeleteSubdomain.

(** C4, at a sample: of three identifiers the second is refused, and the
    third is never tried. *)
Lemma deleteSubdomain_stops_at_first_failure_witness :
  returned (deleteSubdomain second_refused
              (VArr (map VStr ["id1"; "id2"; "id3"]))) start
  = inr false
  /\ requests (deleteSubdomain second_refused
                 (VArr (map VStr ["id1"; "id2"; "id3"]))) start
     = [delete_subdomain_request second_refused (VStr "id1");
        delete_subdomain_request second_refused (VStr "id2")].
Proof.
  apply (@deleteSubdomain_stops_at_first_failure second_refused
           ["id1"; "id2"; "id3"] 1 start).
  - cbn. lia.
  - intros [| j] Hj; [reflexivity | lia].
  - reflexivity.
Defined.

(** C3, refuted as stated: when both deletions are granted, the second
    identifier gets its delete call too. *)
Lemma deleteSubdomain_returns_after_first_refuted :
  ~ returns_after_first granting ["id1"; "id2"] start.
Proof. unfold returns_after_first. vm_compute. discriminate. Qed.

(** C7, at a sample: [deleteSite] hands the uuid itself, a string, to
    [deleteSubdomain], whose loop then runs through its characters: after
    the delete-site call come delete calls for the subdomains [s], [u],
    [b] and so on, and none for [subdomainObj-1]. *)
Theorem deleteSite_deletes_characters :
  requests (deleteSite granting [VStr "subdomainObj-1"]) start
  = delete_site_request granting (VStr "subdomainObj-1")
    :: map (delete_subdomain_request granting) (chars "subdomainObj-1")
  /\ ~ In (delete_subdomain_request granting (VStr "subdomainObj-1"))
         (requests (deleteSite granting [VStr "subdomainObj-1"]) start).
Proof.
  split; [vm_compute; reflexivity |].
  vm_compute. intros H.
  repeat (destruct H as [H | H]; [discriminate H |]). exact H.
Qed.

(** ** Output does not steer a command *)

Lemma blind_ret {A} (a : A) : out_blind (ret a).
Proof. intros c o. cbn. now rewrite app_nil_r. Qed.

Lemma blind_throw {A} (e : exn) : out_blind (@throw A e).
Proof. intros c o. cbn. now rewrite app_nil_r. Qed.

Lemma blind_lift {A} (r : exn + A) : out_blind (lift r).
Proof. intros c o. cbn. now rewrite app_nil_r. Qed.

Lemma blind_log (line : string) : out_blind (console_log line).
Proof. intros c o. reflexivity. Qed.

Lemma blind_error (line : string) : out_blind (console_error line).
Proof. intros c o. reflexivity. Qed.

Lemma blind_fetch (E : Env) (r : request) : out_blind (fetch E r).
Proof.
  intros c o. unfold fetch. cbn.
  destruct (server E _); cbn; now rewrite app_nil_r.
Qed.

Lemma blind_bind {A B} (m : M A) (k : A -> M B) :
  out_blind m -> (forall a, out_blind (k a)) -> out_blind (bind m k).
Proof.
  intros Hm Hk c o. unfold bind. rewrite (Hm c o).
  destruct (m (World c [])) as [[e | a] [c1 o1]]; cbn.
  - reflexivity.
  - rewrite (Hk a c1 (o +++ o1)), (Hk a c1 o1). cbn.
    now rewrite app_assoc.
Qed.

Lemma blind_try {A} (m : M A) (h : exn -> M A) :
  out_blind m -> (forall e, out_blind (h e)) -> out_blind (try_catch m h).
Proof.
  intros Hm Hh c o. unfold try_catch. rewrite (Hm c o).
  destruct (m (World c [])) as [[e | a] [c1 o1]]; cbn.
  - rewrite (Hh e c1 (o +++ o1)), (Hh e c1 o1). cbn.
    now rewrite app_assoc.
  - reflexivity.
Qed.

Ltac blind :=
  repeat first
    [ apply blind_ret | apply blind_throw | apply blind_lift
    | apply blind_log | apply blind_error | apply blind_fetch
    | apply blind_bind; [| intros ?] | apply blind_try; [| intros ?]
    | match goal with
      | |- out_blind (if ?b then _ else _) => destruct b
      | |- out_blind (match ?x with _ => _ end) => destruct x
      end ].

Lemma blind_deleteSubdomain (E : Env) (args : value) :
  out_blind (deleteSubdomain E args).
Proof.
  assert (Hloop : forall ids, out_blind (deleteSubdomain_loop E ids)).
  { induction ids as [| subdomainId rest IH]; cbn [deleteSubdomain_loop].
    - blind.
    - apply blind_bind; [unfold deleteSubdomain_attempt, json; blind |].
      intros [b |]; [blind | exact IH]. }
  unfold deleteSubdomain. blind; apply Hloop.
Qed.

Section DeploySite.

Variable E : Env.

Local Arguments candidate : simpl never.
Local Arguments remote_dir : simpl never.
Local Arguments deleteSubdomain : simpl never.
Local Arguments deploySite_host : simpl never.

Local Arguments String.append : simpl never.

(** C6. When the candidate subdomain is bound, belongs to the current
    user and points at the directory being deployed, [deploySite] prints
    that it is already deployed, with the URL of the subdomain, and
    returns: the select call is the only request, no hosting call is
    made. *)
Theorem deploySite_same_directory_is_noop
        (args : list string) (w : world) (subdomains : list value) (sd : value) :
  args <> [] ->
  subdomains_fetched E w subdomains ->
  bound_by subdomains (candidate args) sd ->
  owner_of sd (VStr (getCurrentUserName E)) ->
  directory_of sd (VStr (remote_dir E args)) ->
  returned (deploySite E args) w = inr tt
  /\ requests (deploySite E args) w
     = (calls w +++ [select_subdomains_request E (VObj [])])
  /\ host_calls (requests (deploySite E args) w) = host_calls (calls w)
  /\ exists earlier,
      printed (deploySite E args) w
      = (earlier +++
         [(Stdout, "Which is already the selected directory, and deployed at:");
          (Stdout, "https://" ++ candidate args ++ ".puter.site")]).
Proof.
  intros Hargs (st & data & success & Hsrv & Hs & Ht & Hr) [Hfind Hsd]
    (owner & Ho & Hu) (root_dir & Hrd & Hp).
  destruct args as [| appName rest]; [congruence |].
  assert (Hrun : deploySite E (appName :: rest) w
                 = (inr tt,
                    World (calls w +++ [select_subdomains_request E (VObj [])])
                      (out w +++
                       [(Stdout, "Deploying app " ++ dq ++ appName ++ dq ++ " from "
                                   ++ dq ++ remote_dir E (appName :: rest) ++ dq
                                   ++ "..." ++ nl);
                        (Stderr, "The subdomain " ++ dq ++ candidate (appName :: rest)
                                   ++ dq ++ " is already in use and owned by: " ++ dq
                                   ++ getCurrentUserName E ++ dq);
                        (Stdout, "It's yours, and linked to: "
                                   ++ remote_dir E (appName :: rest));
                        (Stdout, "Which is already the selected directory, and deployed at:");
                        (Stdout, "https://" ++ candidate (appName :: rest)
                                   ++ ".puter.site")]))).
  { unfold deploySite, getSubdomains. cbn [List.length Nat.ltb Nat.leb].
    step. rewrite Hsrv. cbn. rewrite Hs, Hr. cbn. rewrite Ht. cbn.
    rewrite Hfind, Hsd. cbn. rewrite Ho, Hu. cbn.
    rewrite String.eqb_refl, Hrd, Hp. cbn. rewrite String.eqb_refl. cbn.
    rewrite <- !app_assoc. reflexivity. }
  unfold returned, requests, printed. rewrite Hrun. cbn [fst snd calls out].
  repeat split.
  - unfold host_calls. rewrite filter_app. cbn. now rewrite app_nil_r.
  - eexists (out w +++ [_; _; _]). rewrite <- app_assoc. reflexivity.
Qed.

(** Step 3 always sends the hosting call, right after printing that it
    hosts the app. *)
Lemma deploySite_host_spec (appName subdomain remoteDir : string) (w : world) :
  exists r later,
    deploySite_host E appName subdomain remoteDir w
    = (r, World (calls w +++ [create_subdomain_request E subdomain remoteDir])
                (out w +++
                 (Stdout, "Hosting app " ++ dq ++ appName ++ dq
                            ++ " under subdomain " ++ dq ++ subdomain ++ dq
                            ++ "...")
                 :: later)).
Proof.
  unfold deploySite_host, hostDirectory. step.
  destruct (server E _) as [why | [[|] st [data |]]]; cbn;
    repeat match goal with
           | |- context [match get ?v ?k with _ => _ end] =>
               destruct (get v k); cbn
           end;
    rewrite <- ?app_assoc; cbn [app]; eauto.
Qed.

(** When no entry of the list binds the candidate, the hosting call is
    made for the generated name. *)
Lemma deploySite_free_generates
      (args : list string) (w : world) (subdomains : list value) :
  args <> [] ->
  subdomains_fetched E w subdomains ->
  free_in subdomains (candidate args) ->
  requests (deploySite E args) w
  = calls w +++ [select_subdomains_request E (VObj []);
                 create_subdomain_request E (generateAppName E)
                   (remote_dir E args)].
Proof.
  intros Hargs (st & data & success & Hsrv & Hs & Ht & Hr) Hfree.
  destruct args as [| appName rest]; [congruence |].
  unfold requests, deploySite, getSubdomains. cbn [List.length Nat.ltb Nat.leb].
  step. rewrite Hsrv. cbn. rewrite Hs, Hr. cbn. rewrite Ht. cbn.
  rewrite Hfree. cbn.
  match goal with
  | |- context [deploySite_host E ?a ?b ?c ?w2] =>
      destruct (deploySite_host_spec a b c w2) as (r & later & ->)
  end.
  destruct r; cbn; rewrite <- app_assoc; reflexivity.
Qed.

(** When the candidate is bound and belongs to somebody else, the hosting
    call is made for the candidate itself. *)
Lemma deploySite_foreign_keeps
      (args : list string) (w : world) (subdomains : list value)
      (sd username : value) :
  args <> [] ->
  subdomains_fetched E w subdomains ->
  bound_by subdomains (candidate args) sd ->
  owner_of sd username ->
  str_eq username (getCurrentUserName E) = false ->
  requests (deploySite E args) w
  = calls w +++ [select_subdomains_request E (VObj []);
                 create_subdomain_request E (candidate args)
                   (remote_dir E args)].
Proof.
  intros Hargs (st & data & success & Hsrv & Hs & Ht & Hr) [Hfind Hsd]
    (owner & Ho & Hu) Hother.
  destruct args as [| appName rest]; [congruence |].
  unfold requests, deploySite, getSubdomains. cbn [List.length Nat.ltb Nat.leb].
  step. rewrite Hsrv. cbn. rewrite Hs, Hr. cbn. rewrite Ht. cbn.
  rewrite Hfind, Hsd. cbn. rewrite Ho, Hu. cbn. rewrite Hother.
  match goal with
  | |- context [deploySite_host E ?a ?b ?c ?w2] =>
      destruct (deploySite_host_spec a b c w2) as (r & later & ->)
  end.
  destruct r; cbn; rewrite <- app_assoc; reflexivity.
Qed.

(** C10. When the candidate subdomain is bound, belongs to the current
    user and points at another directory, and the call
    [deleteSubdomain(uid)] that should release it returns [false],
    [deploySite] goes on: it prints that it could not release the
    subdomain, and its next and last request is the hosting call for the
    candidate name, still bound. *)
Theorem deploySite_hosts_after_failed_unbind
        (args : list string) (w : world) (subdomains : list value)
        (sd path uid : value) :
  let history := calls w +++ [select_subdomains_request E (VObj [])] in
  args <> [] ->
  subdomains_fetched E w subdomains ->
  bound_by subdomains (candidate args) sd ->
  owner_of sd (VStr (getCurrentUserName E)) ->
  directory_of sd path ->
  str_eq path (remote_dir E args) = false ->
  get sd "uid" = inr uid ->
  unbind_fails E history uid ->
  requests (deploySite E args) w
  = requests (deleteSubdomain E uid) (World history [])
      +++ [create_subdomain_request E (candidate args) (remote_dir E args)]
  /\ exists earlier later,
      printed (deploySite E args) w
      = earlier
          +++ (Stdout, "Could not release this subdomain.")
          :: (Stdout, "Hosting app " ++ dq ++ nth 0 args EmptyString ++ dq
                        ++ " under subdomain " ++ dq ++ candidate args ++ dq
                        ++ "...")
          :: later.
Proof.
  intros history Hargs (st & data & success & Hsrv & Hs & Ht & Hr) [Hfind Hsd]
    (owner & Ho & Hu) (root_dir & Hrd & Hp) Hother Huid Hfails.
  destruct args as [| appName rest]; [congruence |].
  unfold unbind_fails, returned in Hfails.
  set (w1 := snd (deleteSubdomain E uid (World history []))) in *.
  assert (Hrun : exists r earlier later,
             deploySite E (appName :: rest) w
             = (r, World (calls w1 +++
                          [create_subdomain_request E (candidate (appName :: rest))
                             (remote_dir E (appName :: rest))])
                         (earlier
                          +++ (Stdout, "Could not release this subdomain.")
                          :: (Stdout, "Hosting app " ++ dq ++ appName ++ dq
                                        ++ " under subdomain " ++ dq
                                        ++ candidate (appName :: rest) ++ dq
                                        ++ "...")
                          :: later))).
  { unfold deploySite, getSubdomains. cbn [List.length Nat.ltb Nat.leb].
    step. rewrite Hsrv. cbn. rewrite Hs, Hr. cbn. rewrite Ht. cbn.
    rewrite Hfind, Hsd. cbn. rewrite Ho, Hu. cbn.
    rewrite String.eqb_refl, Hrd, Hp. cbn.
    rewrite Hother, Huid. cbn.
    rewrite blind_deleteSubdomain. fold history. rewrite Hfails. fold w1.
    cbn [calls out].
    match goal with
    | |- context [deploySite_host E ?a ?b ?c ?w2] =>
        destruct (deploySite_host_spec a b c w2) as (r & later & ->)
    end.
    cbn [calls out].
    destruct r as [e | []]; cbn;
      eexists _, (out w +++ _ :: _ :: _ :: _ :: _ :: out w1), _;
      rewrite <- !app_assoc; cbn [app]; rewrite <- ?app_assoc; cbn [app];
      reflexivity. }
  destruct Hrun as (r & earlier & later & Hrun).
  unfold requests, printed. rewrite Hrun. cbn [snd calls out nth]. eauto.
Qed.

End DeploySite.

(** C6, at a sample: [myapp] is alice's and already points at her
    current directory. *)
Lemma deploySite_same_directory_is_noop_witness :
  requests (deploySite bound_here ["myapp"]) start
  = [select_subdomains_request bound_here (VObj [])].
Proof.
  refine (proj1 (proj2
    (@deploySite_same_directory_is_noop bound_here ["myapp"] start
       [entry "sd-1" "myapp" "alice" "/alice/site"]
       (entry "sd-1" "myapp" "alice" "/alice/site") _ _ _ _ _))).
  - discriminate.
  - exists 200%Z. do 2 eexists. repeat split; reflexivity.
  - split; reflexivity.
  - eexists. split; reflexivity.
  - eexists. split; reflexivity.
Defined.

(** C10, at a sample: [myapp] is alice's, points at another directory,
    and the API refuses to delete what [deleteSubdomain] asks for. *)
Lemma deploySite_hosts_after_failed_unbind_witness :
  requests (deploySite bound_elsewhere ["myapp"]) start
  = [select_subdomains_request bound_elsewhere (VObj []);
     delete_subdomain_request bound_elsewhere (VStr "s");
     create_subdomain_request bound_elsewhere "myapp" "/alice/site"].
Proof.
  refine (proj1
    (@deploySite_hosts_after_failed_unbind bound_elsewhere ["myapp"] start
       [entry "sd-1" "myapp" "alice" "/alice/old"]
       (entry "sd-1" "myapp" "alice" "/alice/old")
       (VStr "/alice/old") (VStr "sd-1") _ _ _ _ _ _ _ _)).
  - discriminate.
  - exists 200%Z. do 2 eexists. repeat split; reflexivity.
  - split; reflexivity.
  - eexists. split; reflexivity.
  - eexists. split; reflexivity.
  - reflexivity.
  - reflexivity.
  - reflexivity.
Defined.

(** C1, at a sample: the user has no subdomain, so [myapp] is not in the
    list; [deploySite] announces that it is taken and hosts the directory
    under the generated name instead. *)
Theorem deploySite_free_candidate_replaced :
  requests (deploySite nothing_bound ["myapp"]) start
  = [select_subdomains_request nothing_bound (VObj []);
     create_subdomain_request nothing_bound "brave-otter-1234" "/alice/site"]
  /\ printed (deploySite nothing_bound ["myapp"]) start
     = [(Stdout, "Deploying app " ++ dq ++ "myapp" ++ dq ++ " from " ++ dq
                   ++ "/alice/site" ++ dq ++ "..." ++ nl);
        (Stdout, "The subdomain: " ++ dq ++ "myapp" ++ dq
                   ++ " is already taken, so let's generate a new random one:");
        (Stdout, "New generated subdomain: " ++ dq ++ "brave-otter-1234" ++ dq
                   ++ " will be used.");
        (Stdout, "Hosting app " ++ dq ++ "myapp" ++ dq ++ " under subdomain "
                   ++ dq ++ "brave-otter-1234" ++ dq ++ "...");
        (Stdout, "App " ++ dq ++ "myapp" ++ dq ++ " deployed successfully!");
        (Stdout, "Website hosted at: https://brave-otter-1234.puter.site")].
Proof. split; vm_compute; reflexivity. Qed.

(** C2, at a sample: [myapp] is bob's; [deploySite] reports the owner and
    then sends the hosting call for [myapp] all the same, no name being
    generated. *)
Theorem deploySite_foreign_candidate_kept :
  requests (deploySite bound_by_other ["myapp"]) start
  = [select_subdomains_request bound_by_other (VObj []);
     create_subdomain_request bound_by_other "myapp" "/alice/site"]
  /\ printed (deploySite bound_by_other ["myapp"]) start
     = [(Stdout, "Deploying app " ++ dq ++ "myapp" ++ dq ++ " from " ++ dq
                   ++ "/alice/site" ++ dq ++ "..." ++ nl);
        (Stderr, "The subdomain " ++ dq ++ "myapp" ++ dq
                   ++ " is already in use and owned by: " ++ dq ++ "bob" ++ dq);
        (Stdout, "Hosting app " ++ dq ++ "myapp" ++ dq ++ " under subdomain "
                   ++ dq ++ "myapp" ++ dq ++ "...");
        (Stdout, "App " ++ dq ++ "myapp" ++ dq ++ " deployed successfully!");
        (Stderr, "Failed to deploy app.");
        (Stderr, "Error: Cannot read properties of undefined (reading 'subdomain')")].
Proof. split; vm_compute; reflexivity. Qed.

Section CreateApp.

Variable E : Env.

Local Arguments String.append : simpl never.

(** C5. When the app has been created and the directory request is then
    answered without a [uid] (or with no document), [createApp] prints
    that the directory could not be created and returns: the create and
    mkdir requests are the only ones, so neither the subdomain is created
    nor the app updated. *)
Theorem createApp_stops_when_directory_fails
        (name : string) (description url : option string) (w : world)
        (appUid appName username : value) :
  let create := create_app_request E name (or_default description EmptyString)
                  (or_default url default_url) in
  let mkdir := mkdir_request E username appUid (randomUUID E) in
  app_created E (calls w +++ [create]) appUid appName username ->
  directory_refused E (calls w +++ [create; mkdir]) ->
  returned (createApp E name description url) w = inr tt
  /\ requests (createApp E name description url) w
     = calls w +++ [create; mkdir]
  /\ exists earlier,
      printed (createApp E name description url) w
      = earlier +++
        [(Stderr, "Failed to create directory for app " ++ dq ++ name ++ dq)].
Proof.
  intros create mkdir
    (o1 & st1 & d1 & result & owner & Hsrv1 & Hok1 & Hres & Huid & Hname & Hown & Huser)
    (o2 & st2 & d2 & Hsrv2 & Hno).
  assert (Hrun : exists earlier,
             createApp E name description url w
             = (inr tt,
                World (calls w +++ [create; mkdir])
                  (earlier +++
                   [(Stderr, "Failed to create directory for app "
                               ++ dq ++ name ++ dq)]))).
  { unfold createApp. step. fold create. rewrite Hsrv1. cbn.
    rewrite Hok1. cbn. rewrite Hres, Huid, Hname, Hown, Huser. cbn.
    fold mkdir. rewrite <- app_assoc. cbn [app]. rewrite Hsrv2. cbn.
    rewrite Hno. cbn. eauto. }
  destruct Hrun as [earlier Hrun].
  unfold returned, requests, printed. rewrite Hrun. cbn. eauto.
Qed.

(** C9, as amended.  In a run of [createApp] whose four steps succeed,
    the subdomain created is [name-segment], with the first segment of
    the uuid; the [index_url] written by the update is
    [https://appName.puter.site], with the canonical name the API gave;
    the last line printed is [https://name-segment.puter.site].  The
    [index_url] is the URL of the subdomain created exactly when the
    canonical name is [name-segment] itself, and it differs from it
    whenever the canonical name is the name requested. *)
Theorem createApp_index_url_and_subdomain
        (name : string) (description url : option string) (w : world)
        (appUid appName username dirName : value) :
  let subdomainName := name ++ "-" ++ first_segment (randomUUID E) in
  let index_url := "https://" ++ to_string appName ++ ".puter.site" in
  let site_url := "https://" ++ subdomainName ++ ".puter.site" in
  let create := create_app_request E name (or_default description EmptyString)
                  (or_default url default_url) in
  let mkdir := mkdir_request E username appUid (randomUUID E) in
  let subdomain :=
    create_subdomain_request E subdomainName
      ("/" ++ to_string username ++ "/AppData/" ++ to_string appUid ++ "/"
           ++ to_string dirName) in
  let update := update_app_request E appName index_url name in
  app_created E (calls w +++ [create]) appUid appName username ->
  directory_created E (calls w +++ [create; mkdir]) dirName ->
  granted E (calls w +++ [create; mkdir; subdomain]) ->
  granted E (calls w +++ [create; mkdir; subdomain; update]) ->
  requests (createApp E name description url) w
  = calls w +++ [create; mkdir; subdomain; update]
  /\ (exists earlier,
        printed (createApp E name description url) w
        = earlier +++ [(Stdout, "App deployed successfully at:");
                       (Stdout, site_url)])
  /\ (index_url = site_url <-> to_string appName = subdomainName)
  /\ (to_string appName = name -> index_url <> site_url).
Proof.
  intros subdomainName index_url site_url create mkdir subdomain update
    (o1 & st1 & d1 & result & owner & Hsrv1 & Hok1 & Hres & Huid & Hname & Hown & Huser)
    (o2 & st2 & d2 & Hsrv2 & Hok2 & Hdir)
    (o3 & st3 & d3 & Hsrv3 & Hok3)
    (o4 & st4 & d4 & Hsrv4 & Hok4).
  assert (Huid2 : exists dirUid, get d2 "uid" = inr dirUid).
  { unfold lacks in Hok2. destruct (truthy d2); [| discriminate].
    destruct (get d2 "uid"); [discriminate | eauto]. }
  destruct Huid2 as [dirUid Huid2].
  assert (Hrun : exists earlier,
             createApp E name description url w
             = (inr tt,
                World (calls w +++ [create; mkdir; subdomain; update])
                  (earlier +++ [(Stdout, "App deployed successfully at:");
                                (Stdout, site_url)]))).
  { unfold createApp. step. fold create. rewrite Hsrv1. cbn.
    rewrite Hok1. cbn. rewrite Hres, Huid, Hname, Hown, Huser. cbn.
    fold mkdir. rewrite <- app_assoc. cbn [app]. rewrite Hsrv2. cbn.
    rewrite Hok2. cbn. rewrite Huid2. cbn. rewrite Hdir. cbn.
    fold subdomainName. fold subdomain. rewrite <- app_assoc. cbn [app].
    rewrite Hsrv3. cbn. rewrite Hok3. cbn.
    fold index_url. fold update. rewrite <- app_assoc. cbn [app].
    rewrite Hsrv4. cbn. rewrite Hok4. cbn.
    match goal with
    | |- exists _, (_, World _ ((?lines +++ [_]) +++ [_])) = _ => exists lines
    end.
    rewrite <- app_assoc. reflexivity. }
  destruct Hrun as [earlier Hrun].
  unfold requests, printed. rewrite Hrun. cbn [snd calls out].
  repeat split; eauto.
  - apply site_url_inj.
  - apply site_url_inj.
  - intros Hsame Heq.
    apply (proj1 (site_url_inj (to_string appName) subdomainName)) in Heq.
    rewrite Hsame in Heq.
    exact (@append_suffix_neq name "-"%char (first_segment (randomUUID E)) Heq).
Qed.

End CreateApp.

(** C5, at a sample: the app is created, the mkdir answer has no uid. *)
Lemma createApp_stops_when_directory_fails_witness :
  requests (createApp no_directory "app" None None) start
  = [create_app_request no_directory "app" EmptyString default_url;
     mkdir_request no_directory (VStr "alice") (VStr "app-7")
       (randomUUID no_directory)].
Proof.
  refine (proj1 (proj2
    (@createApp_stops_when_directory_fails no_directory "app" None None start
       (VStr "app-7") (VStr "app") (VStr "alice") _ _))).
  - exists true, 200%Z. do 3 eexists. repeat split; reflexivity.
  - exists true, 200%Z. eexists. split; reflexivity.
Defined.

(** C9, refuted as stated: the API names the app [app-1a2b3c4d] and the
    uuid drawn next starts with [1a2b3c4d]; the run succeeds, and the
    [index_url] it stores is the URL of the subdomain it created. *)
Lemma createApp_index_url_can_be_site_url :
  exists create mkdir earlier subdomain root_dir index_url,
    requests (createApp coinciding "app" None None) start
    = [create; mkdir;
       create_subdomain_request coinciding subdomain root_dir;
       update_app_request coinciding (VStr "app-1a2b3c4d") index_url "app"]
    /\ printed (createApp coinciding "app" None None) start
       = earlier +++ [(Stdout, "App deployed successfully at:");
                      (Stdout, "https://" ++ subdomain ++ ".puter.site")]
    /\ index_url = "https://" ++ subdomain ++ ".puter.site".
Proof.
  do 2 eexists.
  exists (firstn 10 (printed (createApp coinciding "app" None None) start)).
  exists "app-1a2b3c4d",
    "/alice/AppData/app-7/app-1a2b3c4d-0000-4000-8000-000000000000",
    "https://app-1a2b3c4d.puter.site".
  repeat split; vm_compute; reflexivity.
Qed.

(** C9 as amended, at a sample: the app keeps the name requested. *)
Lemma createApp_index_url_and_subdomain_witness :
  "https://" ++ to_string (VStr "app") ++ ".puter.site"
  <> "https://" ++ "app" ++ "-" ++ first_segment (randomUUID all_granted)
       ++ ".puter.site".
Proof.
  refine (proj2 (proj2 (proj2
    (@createApp_index_url_and_subdomain all_granted "app" None None start
       (VStr "app-7") (VStr "app") (VStr "alice")
       (VStr "app-1a2b3c4d-0000-4000-8000-000000000000") _ _ _ _))) _).
  - exists true, 200%Z. do 3 eexists. repeat split; reflexivity.
  - exists true, 200%Z. eexists. repeat split; reflexivity.
  - exists true, 200%Z. eexists. split; reflexivity.
  - exists true, 200%Z. eexists. split; reflexivity.
  - reflexivity.
Defined.

Section DeleteApp.

Variable E : Env.

Local Arguments String.append : simpl never.

(** C8. When the read call is answered with a falsy [success] or without
    a [result], [deleteApp] prints [App "name" not found.], a line that
    contains [not found], and returns [false]; the read call is its only
    request, the delete call is never made. *)
Theorem deleteApp_not_found (name : string) (w : world) :
  app_missing E (calls w +++ [app_request E "read" name]) ->
  returned (deleteApp E name) w = inr (VBool false)
  /\ requests (deleteApp E name) w = calls w +++ [app_request E "read" name]
  /\ exists earlier line,
      printed (deleteApp E name) w = earlier +++ [(Stdout, line)]
      /\ line = "App " ++ dq ++ name ++ dq ++ " not found."
      /\ Substring "not found" line.
Proof.
  intros (o & st & data & success & result & Hsrv & Hs & Hr & Hno).
  assert (Hrun : deleteApp E name w
                 = (inr (VBool false),
                    World (calls w +++ [app_request E "read" name])
                      ((out w +++
                        [(Stdout, "Checking app " ++ dq ++ name ++ dq ++ "..." ++ nl)])
                       +++ [(Stdout, "App " ++ dq ++ name ++ dq ++ " not found.")]))).
  { unfold deleteApp. step. rewrite Hsrv. cbn. rewrite Hs, Hr. cbn.
    rewrite <- negb_andb, Hno. reflexivity. }
  unfold returned, requests, printed. rewrite Hrun. cbn [fst snd calls out].
  repeat split. do 2 eexists. repeat split.
  exists ("App " ++ dq ++ name ++ dq ++ " "), ".".
  rewrite !string_append_assoc. reflexivity.
Qed.

End DeleteApp.

(** C8, at a sample: the app [ghost] does not exist. *)
Lemma deleteApp_not_found_witness :
  returned (deleteApp no_such_app "ghost") start = inr (VBool false)
  /\ requests (deleteApp no_such_app "ghost") start
     = [app_request no_such_app "read" "ghost"].
Proof.
  destruct (@deleteApp_not_found no_such_app "ghost" start) as (Hr & Hc & _).
  - exists true, 200%Z. do 3 eexists. repeat split; reflexivity.
  - split; [exact Hr | exact Hc].
Defined.

(** * Further properties *)

(** ** Splitting strings *)

Lemma prefix_head_absent (c a : ascii) (sep rest : string) :
  Ascii.eqb a c = false -> String.prefix (String c sep) (String a rest) = false.
Proof.
  intros H. cbn. destruct (ascii_dec c a) as [-> |]; [| reflexivity].
  rewrite Ascii.eqb_refl in H. discriminate.
Qed.

Lemma prefix_empty (s : string) : String.prefix EmptyString s = true.
Proof. destruct s; reflexivity. Qed.

Lemma prefix_char_here (c : ascii) (rest : string) :
  String.prefix (String c EmptyString) (String c rest) = true.
Proof. cbn. destruct (ascii_dec c c); [apply prefix_empty | congruence]. Qed.

(** A string without the first character of the separator is one piece. *)
Lemma split_from_absent (c : ascii) (sep : string) :
  forall s, has_char c s = false -> split_from (String c sep) 0 s = [s].
Proof.
  induction s as [| a rest IH]; intros H; [reflexivity |].
  cbn [has_char] in H. apply orb_false_iff in H. destruct H as [Ha Hrest].
  cbn [split_from]. rewrite prefix_head_absent, IH by assumption. reflexivity.
Qed.

Lemma split_absent (c : ascii) :
  forall s, has_char c s = false -> split c s = [s].
Proof.
  induction s as [| a rest IH]; intros H; [reflexivity |].
  cbn [has_char] in H. apply orb_false_iff in H. destruct H as [Ha Hrest].
  cbn [split]. rewrite Ha, (IH Hrest). reflexivity.
Qed.

(** The piece before the first separator. *)
Lemma split_from_first (c : ascii) (rest : string) :
  forall p, has_char c p = false ->
    split_from (String c EmptyString) 0 (p ++ String c rest)
    = p :: split_from (String c EmptyString) 0 rest.
Proof.
  induction p as [| a p IH]; intros H.
  - cbn [String.append split_from]. rewrite prefix_char_here. reflexivity.
  - cbn [has_char] in H. apply orb_false_iff in H. destruct H as [Ha Hp].
    cbn [String.append split_from]. rewrite prefix_head_absent, IH by assumption.
    reflexivity.
Qed.

(** The piece after the last separator. *)
Lemma split_from_last (c : ascii) (name : string) :
  has_char c name = false ->
  forall dir, exists first middle,
    split_from (String c EmptyString) 0 (dir ++ String c name)
    = first :: (middle +++ [name]).
Proof.
  intros Hname. induction dir as [| a dir (first & middle & IH)].
  - exists EmptyString, []. cbn [String.append split_from].
    rewrite prefix_char_here. cbn.
    now rewrite split_from_absent by assumption.
  - cbn [String.append split_from].
    destruct (Ascii.eqb a c) eqn:Ha.
    + apply Ascii.eqb_eq in Ha. subst a. rewrite prefix_char_here. cbn.
      rewrite IH. exists EmptyString, (first :: middle). reflexivity.
    + rewrite prefix_head_absent by assumption. rewrite IH.
      exists (String a first), middle. reflexivity.
Qed.

Lemma has_char_append (c : ascii) (a b : string) :
  has_char c (a ++ b) = has_char c a || has_char c b.
Proof.
  induction a as [| x a IH]; cbn; [reflexivity |].
  now rewrite IH, orb_assoc.
Qed.

(** X23. The subdomain column of [listApps] undoes the URL that step 4 of
    [createApp] stores: for a name without dot or slash, the cell made
    from [https://name.puter.site] is the name. *)
Theorem subdomain_cell_of_site_url (name : string) :
  has_char "." name = false ->
  has_char "/" name = false ->
  subdomain_cell (VStr ("https://" ++ name ++ ".puter.site")) = inr (VStr name).
Proof.
  intros Hdot Hslash. unfold subdomain_cell, split_value, split_on.
  change ("https://" ++ name ++ ".puter.site")
    with (("https://" ++ name) ++ String "." "puter.site") at 2.
  rewrite split_from_first by (rewrite has_char_append; cbn; exact Hdot).
  cbn. rewrite prefix_empty. cbn.
  rewrite split_from_absent by assumption. reflexivity.
Qed.

Lemma subdomain_cell_of_site_url_witness :
  subdomain_cell (VStr ("https://" ++ "app-1a2b3c4d" ++ ".puter.site"))
  = inr (VStr "app-1a2b3c4d").
Proof. apply (@subdomain_cell_of_site_url "app-1a2b3c4d"); reflexivity. Defined.

(** X29. The directory column of [listSubdomains] is the last segment of
    the path: for [root_dir.path = dir/name], with no slash in [name],
    the cell is [name]. *)
Theorem directory_cell_last_segment (root_dir : value) (dir name : string) :
  get root_dir "path" = inr (VStr (dir ++ "/" ++ name)) ->
  has_char "/" name = false ->
  directory_cell root_dir = inr (VStr name).
Proof.
  intros Hpath Hname. unfold directory_cell.
  destruct (@split_from_last "/"%char name Hname dir) as (first & middle & Hsplit).
  destruct root_dir; try (cbn in Hpath; discriminate Hpath);
    rewrite Hpath;
    unfold split_value, split_on; change (dir ++ "/" ++ name)
      with (dir ++ String "/" name); rewrite Hsplit;
    unfold item; cbn [List.length Nat.sub];
    rewrite length_app, Nat.add_1_r, Nat.sub_0_r;
    cbn [nth_error]; rewrite nth_error_app2, Nat.sub_diag by lia;
    reflexivity.
Qed.

Lemma directory_cell_last_segment_witness :
  directory_cell (VObj [("path", VStr ("/alice/sites" ++ "/" ++ "blog"))])
  = inr (VStr "blog").
Proof.
  apply (@directory_cell_last_segment _ "/alice/sites" "blog"); reflexivity.
Defined.

(** ** The arguments of [deploySite] *)

Lemma prefix_append (p s : string) : String.prefix p (p ++ s) = true.
Proof.
  induction p as [| a p IH]; cbn; [apply prefix_empty |].
  destruct (ascii_dec a a); [exact IH | congruence].
Qed.

Lemma append_empty_r (s : string) : s ++ EmptyString = s.
Proof. induction s as [| a s IH]; cbn; [reflexivity | now rewrite IH]. Qed.

Lemma split_first (c : ascii) (rest : string) :
  forall p, has_char c p = false ->
    split c (p ++ String c rest) = p :: split c rest.
Proof.
  induction p as [| a p IH]; intros H.
  - cbn. now rewrite Ascii.eqb_refl.
  - cbn [has_char] in H. apply orb_false_iff in H. destruct H as [Ha Hp].
    cbn [String.append split]. rewrite Ha, IH by assumption. reflexivity.
Qed.

Lemma find_first {A} (f : A -> bool) (x : A) (after : list A) :
  f x = true ->
  forall before, (forall a, In a before -> f a = false) ->
    find f (before +++ x :: after) = Some x.
Proof.
  intros Hx. induction before as [| a before IH]; intros Hbefore; cbn.
  - now rewrite Hx.
  - rewrite (Hbefore a) by now left. apply IH. intros b Hb. apply Hbefore. now right.
Qed.

(** X11. The subdomain asked for by a flag.  In the first argument that
    starts with [--subdomain=], the value runs up to the next [=] (or to
    the end): that value is the candidate, unless it is empty, in which
    case the candidate is the app name. *)
Theorem candidate_of_flag
        (before after : list string) (value rest : string) :
  (forall a, In a before -> startsWith "--subdomain=" a = false) ->
  has_char "=" value = false ->
  rest = EmptyString \/ (exists more, rest = String "=" more) ->
  candidate (before +++ ("--subdomain=" ++ value ++ rest) :: after)
  = if value =? EmptyString
    then nth 0 (before +++ ("--subdomain=" ++ value ++ rest) :: after) EmptyString
    else value.
Proof.
  intros Hbefore Hvalue Hrest. unfold candidate, subdomain_option.
  rewrite find_first by (assumption || apply prefix_append).
  change ("--subdomain=" ++ value ++ rest)
    with ("--subdomain" ++ String "=" (value ++ rest)) at 1.
  rewrite split_first by reflexivity.
  assert (Hpiece : exists pieces, split "=" (value ++ rest) = value :: pieces).
  { destruct Hrest as [-> | [more ->]].
    - rewrite append_empty_r, split_absent by assumption. eauto.
    - rewrite split_first by assumption. eauto. }
  destruct Hpiece as [pieces ->]. cbn [nth_error].
  destruct (value =? EmptyString); reflexivity.
Qed.

Lemma candidate_of_flag_witness :
  candidate (["myapp"; "./site"] +++ ("--subdomain=" ++ "blog" ++ "=x") :: [])
  = "blog".
Proof.
  apply (@candidate_of_flag ["myapp"; "./site"] [] "blog" "=x").
  - intros a [<- | [<- | []]]; reflexivity.
  - reflexivity.
  - right. eexists. reflexivity.
Defined.

(** ** Looking a subdomain up *)

Lemma get_subdomain_match (sd v : value) (name : string) :
  get sd "subdomain" = inr v -> str_eq v name = true ->
  exists members, sd = VObj members /\ lookup "subdomain" members = VStr name.
Proof.
  intros Hget Heq.
  destruct sd; cbn in Hget; try discriminate Hget;
    injection Hget as <-; cbn in Heq; try discriminate Heq.
  destruct (lookup "subdomain" members) eqn:Hl; cbn in Heq;
    try discriminate Heq.
  apply String.eqb_eq in Heq. subst. eauto.
Qed.

(** X12. What [find_subdomain] finds.  When the search ends without a
    [TypeError], either it gives [undefined] and no entry of the list is
    named as asked, or it gives the first entry so named, which is an
    object (hence truthy, as the test [if (subdomainObj)] expects). *)
Theorem find_subdomain_first_match
        (name : string) (subdomains : list value) (sd : value) :
  find_subdomain name subdomains = inr sd ->
  let differs x :=
    exists v, get x "subdomain" = inr v /\ str_eq v name = false in
  (sd = VUndef /\ forall x, In x subdomains -> differs x)
  \/ (exists before after members,
        subdomains = before +++ sd :: after
        /\ sd = VObj members
        /\ lookup "subdomain" members = VStr name
        /\ forall x, In x before -> differs x).
Proof.
  intros Hfind differs. revert Hfind.
  induction subdomains as [| x rest IH]; cbn [find_subdomain]; intros Hfind.
  - left. injection Hfind as <-. split; [reflexivity | intros x []].
  - destruct (get x "subdomain") as [e | v] eqn:Hget; [discriminate |].
    destruct (str_eq v name) eqn:Heq.
    + injection Hfind as <-. right.
      destruct (get_subdomain_match _ _ Hget Heq) as (members & -> & Hlookup).
      exists [], rest, members. repeat split; [assumption | intros y []].
    + destruct (IH Hfind) as [[-> Hall] | (before & after & members & -> & -> & Hl & Hb)].
      * left. split; [reflexivity |].
        intros y [<- | Hy]; [exists v; auto | auto].
      * right. exists (x :: before), after, members.
        repeat split; [assumption |].
        intros y [<- | Hy]; [exists v; auto | auto].
Qed.

Lemma find_subdomain_first_match_witness :
  exists before after members,
    [entry "sd-0" "blog" "alice" "/alice/blog";
     entry "sd-1" "myapp" "bob" "/bob/www";
     entry "sd-2" "myapp" "alice" "/alice/site"]
    = before +++ entry "sd-1" "myapp" "bob" "/bob/www" :: after
    /\ entry "sd-1" "myapp" "bob" "/bob/www" = VObj members
    /\ lookup "subdomain" members = VStr "myapp".
Proof.
  destruct (@find_subdomain_first_match "myapp"
              [entry "sd-0" "blog" "alice" "/alice/blog";
               entry "sd-1" "myapp" "bob" "/bob/www";
               entry "sd-2" "myapp" "alice" "/alice/site"]
              (entry "sd-1" "myapp" "bob" "/bob/www") eq_refl)
    as [[Hundef _] | (before & after & members & H1 & H2 & H3 & _)].
  - discriminate Hundef.
  - exists before, after, members. auto.
Defined.

(** ** Commands that let no exception escape *)

Lemma never_throws_ret {A} (a : A) : never_throws (ret a).
Proof. intros w. do 2 eexists. reflexivity. Qed.

Lemma never_throws_log (line : string) : never_throws (console_log line).
Proof. intros w. do 2 eexists. reflexivity. Qed.

Lemma never_throws_error (line : string) : never_throws (console_error line).
Proof. intros w. do 2 eexists. reflexivity. Qed.

Lemma never_throws_bind {A B} (m : M A) (k : A -> M B) :
  never_throws m -> (forall a, never_throws (k a)) -> never_throws (bind m k).
Proof.
  intros Hm Hk w. unfold bind. destruct (Hm w) as (a & w1 & ->). apply Hk.
Qed.

(** A [try] whose [catch] block cannot throw lets nothing out. *)
Lemma never_throws_try {A} (m : M A) (h : exn -> M A) :
  (forall e, never_throws (h e)) -> never_throws (try_catch m h).
Proof.
  intros Hh w. unfold try_catch. destruct (m w) as [[e | a] w1]; [apply Hh | eauto].
Qed.

Ltac safe :=
  repeat first
    [ apply never_throws_ret | apply never_throws_log | apply never_throws_error
    | apply never_throws_try; intros ?
    | apply never_throws_bind; [| intros ?]
    | match goal with
      | |- never_throws (if ?b then _ else _) => destruct b
      end ].

Section Safety.

Variable E : Env.

Lemma never_throws_deleteSubdomain_loop (ids : list value) :
  never_throws (deleteSubdomain_loop E ids).
Proof.
  induction ids as [| subdomainId rest IH]; cbn [deleteSubdomain_loop].
  - safe.
  - apply never_throws_bind; [unfold deleteSubdomain_attempt; safe |].
    intros [b |]; [safe | exact IH].
Qed.



Lemma deleteSubdomain_loop_shape (ids : list value) :
  forall w, exists (b : bool) (n : nat),
    fst (deleteSubdomain_loop E ids w) = inr b
    /\ n <= List.length ids
    /\ calls (snd (deleteSubdomain_loop E ids w)) = calls w +++ attempts E n ids.
Proof.
  induction ids as [| subdomainId rest IH]; intros w.
  - exists true, 0. cbn. rewrite app_nil_r. auto.
  - destruct (deleteSubdomain_loop_cons E subdomainId rest w) as (w1 & Hc & ->).
    destruct (unsuccessful _).
    + exists false, 1. cbn [fst snd List.length]. repeat split; [lia | exact Hc].
    + destruct (IH w1) as (b & n & Hb & Hn & Hreq).
      exists b, (S n). cbn [List.length]. repeat split; [assumption | lia |].
      rewrite Hreq, Hc. unfold attempts. cbn [firstn map].
      rewrite <- app_assoc. reflexivity.
Qed.

(** X2. Given an array, [deleteSubdomain] lets no exception escape either:
    it returns a boolean, and the requests it has made are the delete
    calls of the first [n] identifiers, in the order of the array. *)
Theorem deleteSubdomain_array_shape (ids : list value) (w : world) :
  exists (b : bool) (n : nat),
    returned (deleteSubdomain E (VArr ids)) w = inr b
    /\ n <= List.length ids
    /\ requests (deleteSubdomain E (VArr ids)) w = calls w +++ attempts E n ids.
Proof.
  destruct ids as [| subdomainId rest].
  - exists false, 0. cbn. rewrite app_nil_r. auto.
  - unfold returned, requests.
    rewrite deleteSubdomain_array by discriminate.
    apply deleteSubdomain_loop_shape.
Qed.

Lemma length_chars (s : string) : List.length (chars s) = String.length s.
Proof. induction s as [| a s IH]; cbn; [reflexivity | now rewrite IH]. Qed.

(** X3. A string given to [deleteSubdomain] is taken apart: the call
    behaves in every respect as the call with the array of the
    characters of the string. *)
Theorem deleteSubdomain_string_as_characters (id : string) (w : world) :
  deleteSubdomain E (VStr id) w = deleteSubdomain E (VArr (chars id)) w.
Proof.
  destruct id as [| c rest]; [reflexivity |].
  rewrite deleteSubdomain_string, deleteSubdomain_array by discriminate.
  reflexivity.
Qed.

(** X1. When no answer is unsuccessful, [deleteSubdomain] sends the
    delete call of every identifier, in order, and returns [true]; this
    includes the attempts that threw (request rejected, body not JSON),
    whose error the loop only prints. *)
Theorem deleteSubdomain_all_attempted (ids : list string) (w : world) :
  ids <> [] ->
  (forall j, j < List.length ids ->
     unsuccessful (server E (calls w +++ attempts E (S j) (map VStr ids)))
     = false) ->
  returned (deleteSubdomain E (VArr (map VStr ids))) w = inr true
  /\ requests (deleteSubdomain E (VArr (map VStr ids))) w
     = calls w +++ map (delete_subdomain_request E) (map VStr ids).
Proof.
  intros Hne Hall. unfold returned, requests.
  rewrite deleteSubdomain_array by (destruct ids; [congruence | discriminate]).
  clear Hne. revert w Hall.
  induction ids as [| id rest IH]; intros w Hall.
  - cbn. rewrite app_nil_r. auto.
  - cbn [map].
    destruct (deleteSubdomain_loop_cons E (VStr id) (map VStr rest) w)
      as (w1 & Hc & ->).
    pose proof (Hall 0 ltac:(cbn; lia)) as H0.
    unfold attempts in H0. cbn [firstn map] in H0. rewrite <- Hc in H0.
    rewrite H0.
    destruct (IH w1) as [Hr Hq].
    { intros j Hj. rewrite Hc, <- app_assoc.
      apply (Hall (S j)). cbn. lia. }
    split; [exact Hr |]. rewrite Hq, Hc, <- app_assoc. reflexivity.
Qed.

(** Given a string, [deleteSubdomain] returns a boolean. *)
Lemma deleteSubdomain_string_returns (id : string) (w : world) :
  exists (b : bool) w', deleteSubdomain E (VStr id) w = (inr b, w').
Proof.
  destruct id as [| c rest]; [do 2 eexists; reflexivity |].
  rewrite deleteSubdomain_string by discriminate.
  destruct (deleteSubdomain_loop_shape (chars (String c rest)) w)
    as (b & n & Hb & _).
  destruct (deleteSubdomain_loop E _ w) as [r w']. cbn in Hb. subst r. eauto.
Qed.

(** Whatever it is given, [deleteSubdomain] only sends delete calls. *)
Lemma deleteSubdomain_shape (args : value) (w : world) :
  exists r n ids o,
    deleteSubdomain E args w = (r, World (calls w +++ attempts E n ids) o).
Proof.
  assert (Hloop : forall l, exists r n ids o,
             deleteSubdomain_loop E l w
             = (r, World (calls w +++ attempts E n ids) o)).
  { intros l. destruct (deleteSubdomain_loop_shape l w) as (b & n & _ & _ & Hc).
    destruct (deleteSubdomain_loop E l w) as [r [c o]]. cbn in Hc. subst c.
    eauto 6. }
  assert (Hnone : forall r o, exists r' n ids o',
             (r, World (calls w) o) = (r' : exn + bool, World (calls w +++ attempts E n ids) o')).
  { intros r o. exists r, 0, [], o. cbn. now rewrite app_nil_r. }
  destruct w as [c0 o0]. cbn [calls] in *.
  destruct args as [| | b | z | s | l | ms].
  - apply Hnone.
  - apply Hnone.
  - apply Hnone.
  - apply Hnone.
  - destruct s as [| c rest]; [apply Hnone |].
    rewrite deleteSubdomain_string by discriminate. apply Hloop.
  - destruct l as [| x rest]; [apply Hnone |].
    rewrite deleteSubdomain_array by discriminate. apply Hloop.
  - unfold deleteSubdomain. step. cbn.
    destruct (lt_one E (lookup "length" ms)); apply Hnone.
Qed.

End Safety.

Lemma deleteSubdomain_all_attempted_witness :
  returned (deleteSubdomain unreachable (VArr (map VStr ["id1"; "id2"]))) start
  = inr true
  /\ requests (deleteSubdomain unreachable (VArr (map VStr ["id1"; "id2"]))) start
     = [] +++ map (delete_subdomain_request unreachable) (map VStr ["id1"; "id2"]).
Proof.
  apply (@deleteSubdomain_all_attempted unreachable ["id1"; "id2"] start).
  - discriminate.
  - intros j Hj. reflexivity.
Defined.

(** ** [deleteSite] *)

Section DeleteSite.

Variable E : Env.

Local Arguments String.append : simpl never.
Local Arguments deleteSubdomain : simpl never.

Lemma delete_calls_not_delete_site (n : nat) (ids : list value) :
  filter (is_delete_site E) (attempts E n ids) = [].
Proof.
  unfold attempts. induction (firstn n ids) as [| x l IH]; [reflexivity |].
  cbn [map filter]. rewrite IH.
  replace (is_delete_site E (delete_subdomain_request E x)) with false;
    [reflexivity |].
  symmetry. unfold is_delete_site, delete_subdomain_request, drivers_url.
  cbn [req_url]. apply String.eqb_neq. intros H.
  apply append_inv_head in H. discriminate.
Qed.

(** One turn of the loop of [deleteSite]: the delete-site call, then
    delete calls at most, and no exception. *)
Lemma deleteSite_attempt_shape (uuid : value) (w : world) :
  exists n ids o,
    deleteSite_attempt E uuid w
    = (inr tt,
       World (calls w +++ delete_site_request E uuid :: attempts E n ids) o).
Proof.
  assert (Hnone : forall o, exists n ids o',
             (inr tt, World (calls w +++ [delete_site_request E uuid]) o)
             = (inr tt : exn + unit,
                World (calls w +++ delete_site_request E uuid :: attempts E n ids) o')).
  { intros o. exists 0, [], o. reflexivity. }
  unfold deleteSite_attempt. step.
  destruct (server E _) as [why | [[|] st [data |]]]; cbn; try apply Hnone.
  match goal with
  | |- context [deleteSubdomain E uuid ?w1] =>
      destruct (deleteSubdomain_shape E uuid w1) as (r & n & ids & o & ->)
  end.
  cbn [calls]. rewrite <- app_assoc. cbn [app].
  destruct r as [e | [|]]; cbn; eauto.
  destruct (keys_length data) as [e | k]; cbn; eauto.
  destruct (Nat.eqb k 0); cbn; eauto.
Qed.

(** X5. [deleteSite] never stops at a failure: whatever the answers, it
    sends exactly one delete-site call for each uuid given, in the order
    given. *)
Theorem deleteSite_one_call_per_site (args : list value) (w : world) :
  filter (is_delete_site E) (requests (deleteSite E args) w)
  = filter (is_delete_site E) (calls w) +++ map (delete_site_request E) args.
Proof.
  assert (Hloop : forall l w0,
             filter (is_delete_site E) (calls (snd (deleteSite_loop E l w0)))
             = filter (is_delete_site E) (calls w0)
                 +++ map (delete_site_request E) l).
  { induction l as [| uuid rest IH]; intros w0.
    - cbn. now rewrite app_nil_r.
    - cbn [deleteSite_loop]. unfold bind.
      destruct (deleteSite_attempt_shape uuid w0) as (n & ids & o & ->).
      rewrite IH. cbn [calls map].
      rewrite filter_app. cbn [filter].
      rewrite delete_calls_not_delete_site.
      unfold is_delete_site at 2, delete_site_request at 1. cbn [req_url].
      rewrite String.eqb_refl, <- app_assoc. reflexivity. }
  unfold requests, deleteSite.
  destruct args as [| uuid rest]; [cbn; now rewrite app_nil_r |].
  cbn [List.length Nat.ltb Nat.leb]. apply Hloop.
Qed.

(** X6. When the delete-site endpoint answers with a status that is not
    ok, [deleteSite] does not try to delete any subdomain for that uuid:
    it prints the status as an error and that is all. *)
Theorem deleteSite_refused (uuid : value) (w : world) (st : Z)
        (document : option value) :
  server E (calls w +++ [delete_site_request E uuid])
    = Arrived (Response false st document) ->
  deleteSite E [uuid] w
  = (inr tt,
     World (calls w +++ [delete_site_request E uuid])
       (out w +++
        [(Stderr, "Error deleting site: Failed to delete site (Status: "
                    ++ to_string (VNum st) ++ ")")])).
Proof.
  intros Hsrv. unfold deleteSite. cbn [List.length Nat.ltb Nat.leb deleteSite_loop].
  unfold deleteSite_attempt. step. rewrite Hsrv. reflexivity.
Qed.

(** X7. When the delete-site endpoint accepts the uuid and answers with a
    JSON document, the last line [deleteSite] prints for it is that the
    site [may already be deleted], whether the deletion of the subdomain
    that follows succeeded or not. *)
Theorem deleteSite_always_may_be_deleted (uuid : string) (w : world) (st : Z)
        (data : value) :
  server E (calls w +++ [delete_site_request E (VStr uuid)])
    = Arrived (Response true st (Some data)) ->
  data <> VNull -> data <> VUndef ->
  exists earlier,
    printed (deleteSite E [VStr uuid]) w
    = earlier +++ [(Stdout, "Site ID: " ++ dq ++ uuid ++ dq
                              ++ " may already be deleted!")].
Proof.
  intros Hsrv Hnull Hundef. unfold printed, deleteSite.
  cbn [List.length Nat.ltb Nat.leb deleteSite_loop].
  unfold deleteSite_attempt. step. rewrite Hsrv. cbn.
  match goal with
  | |- context [deleteSubdomain E (VStr uuid) ?w1] =>
      destruct (deleteSubdomain_string_returns E uuid w1) as (b & w2 & ->)
  end.
  assert (Hkeys : exists k, keys_length data = inr k)
    by (destruct data; cbn; eauto; congruence).
  destruct Hkeys as [k Hkeys].
  destruct b; cbn; [rewrite Hkeys; cbn; destruct (Nat.eqb k 0); cbn |]; eauto.
Qed.

End DeleteSite.

Lemma deleteSite_refused_witness :
  deleteSite site_unknown [VStr "subdomainObj-1"] start
  = (inr tt,
     World ([] +++ [delete_site_request site_unknown (VStr "subdomainObj-1")])
       ([] +++
        [(Stderr, "Error deleting site: Failed to delete site (Status: "
                    ++ to_string (VNum 404) ++ ")")])).
Proof.
  apply (@deleteSite_refused site_unknown (VStr "subdomainObj-1") start 404 None).
  reflexivity.
Defined.

Lemma deleteSite_always_may_be_deleted_witness :
  exists earlier,
    printed (deleteSite site_without_subdomain [VStr "subdomainObj-1"]) start
    = earlier +++ [(Stdout, "Site ID: " ++ dq ++ "subdomainObj-1" ++ dq
                              ++ " may already be deleted!")].
Proof.
  apply (@deleteSite_always_may_be_deleted site_without_subdomain
           "subdomainObj-1" start 200 (VObj [])).
  - reflexivity.
  - discriminate.
  - discriminate.
Defined.

(** ** [deploySite], over all its paths *)

Section DeploySitePaths.

Variable E : Env.

Local Arguments String.append : simpl never.
Local Arguments candidate : simpl never.
Local Arguments remote_dir : simpl never.
Local Arguments deleteSubdomain : simpl never.
Local Arguments deploySite_host : simpl never.

(** X8. The requests of [deploySite], on every path.  Given at least one
    argument, it first asks for the list of subdomains; delete calls may
    follow (the attempt to release the candidate); at most one hosting
    call ends the run, and that call is always for the resolved
    directory, under the candidate or under the generated name. *)
Theorem deploySite_requests_shape (args : list string) (w : world) :
  args <> [] ->
  exists n ids tail,
    requests (deploySite E args) w
    = calls w +++ select_subdomains_request E (VObj [])
        :: attempts E n ids +++ tail
    /\ (tail = []
        \/ tail = [create_subdomain_request E (candidate args) (remote_dir E args)]
        \/ tail = [create_subdomain_request E (generateAppName E)
                     (remote_dir E args)]).
Proof.
  intros Hargs. destruct args as [| appName rest]; [congruence |].
  unfold requests, deploySite, getSubdomains.
  cbn [List.length Nat.ltb Nat.leb]. step.
  repeat (unfold ret, throw; cbn;
          match goal with
          | |- context [deploySite_host E ?a ?b ?c ?w2] =>
              destruct (deploySite_host_spec E a b c w2) as (? & ? & ->)
          | |- context [deleteSubdomain E ?u ?w1] =>
              destruct (deleteSubdomain_shape E u w1) as (? & ? & ? & ? & ->)
          | |- context [match ?x with _ => _ end] =>
              lazymatch x with
              | context [match _ with _ => _ end] => fail
              | _ => destruct x
              end
          end);
    unfold ret, throw; cbn; rewrite <- ?app_assoc; cbn [app];
    match goal with
    | |- exists _ _ _, _ +++ _ :: attempts E ?n ?ids +++ ?t = _ /\ _ =>
        exists n, ids, t
    | |- exists _ _ _, _ +++ _ :: attempts E ?n ?ids = _ /\ _ =>
        exists n, ids, []; rewrite app_nil_r
    | |- exists _ _ _, _ +++ _ :: ?t = _ /\ _ => exists 0, [], t
    end;
    (split; [reflexivity | auto]).
Qed.

(** X9. Without the list of subdomains there is no deployment: when the
    select call does not yield a list (request rejected, status not ok,
    body not JSON, [success] falsy, [result] not an array), [deploySite]
    makes no other request and reports that it failed to deploy. *)
Theorem deploySite_needs_listing (args : list string) (w : world) :
  args <> [] ->
  (forall subdomains, ~ subdomains_fetched E w subdomains) ->
  requests (deploySite E args) w
  = calls w +++ [select_subdomains_request E (VObj [])]
  /\ exists earlier reason,
      printed (deploySite E args) w
      = earlier +++ [(Stderr, "Failed to deploy app.");
                     (Stderr, "Error: " ++ reason)].
Proof.
  intros Hargs Hnone. destruct args as [| appName rest]; [congruence |].
  unfold subdomains_fetched in Hnone.
  unfold requests, printed, deploySite, getSubdomains.
  cbn [List.length Nat.ltb Nat.leb]. step.
  destruct (server E _) as [why | [[|] st [data |]]] eqn:Hsrv; cbn;
    try (split; [reflexivity | eexists (out w +++ [_]), _;
                               rewrite <- !app_assoc; reflexivity]).
  destruct (get data "success") as [e | success] eqn:Hs; cbn;
    try (split; [reflexivity | eexists (out w +++ [_]), _;
                               rewrite <- !app_assoc; reflexivity]).
  destruct (get data "result") as [e | result] eqn:Hr; cbn;
    try (split; [reflexivity | eexists (out w +++ [_]), _;
                               rewrite <- !app_assoc; reflexivity]).
  destruct (truthy success) eqn:Ht; cbn;
    try (split; [reflexivity | eexists (out w +++ [_]), _;
                               rewrite <- !app_assoc; reflexivity]).
  destruct result; cbn;
    try (split; [reflexivity | eexists (out w +++ [_]), _;
                               rewrite <- !app_assoc; reflexivity]).
  exfalso. eapply Hnone. eauto 10.
Qed.

(** X10. When the candidate is bound to the current user at another
    directory and the call [deleteSubdomain(uid)] returns [true],
    [deploySite] stops there: it prints that the subdomain is free again
    and asks to try again, and makes no hosting call. *)
Theorem deploySite_stops_after_unbind
        (args : list string) (w : world) (subdomains : list value)
        (sd path uid : value) :
  let history := calls w +++ [select_subdomains_request E (VObj [])] in
  args <> [] ->
  subdomains_fetched E w subdomains ->
  bound_by subdomains (candidate args) sd ->
  owner_of sd (VStr (getCurrentUserName E)) ->
  directory_of sd path ->
  str_eq path (remote_dir E args) = false ->
  get sd "uid" = inr uid ->
  returned (deleteSubdomain E uid) (World history []) = inr true ->
  requests (deploySite E args) w
  = requests (deleteSubdomain E uid) (World history [])
  /\ exists earlier,
      printed (deploySite E args) w
      = earlier +++
        [(Stdout, "Looks like this subdomain is free again, please try again.")].
Proof.
  intros history Hargs (st & data & success & Hsrv & Hs & Ht & Hr) [Hfind Hsd]
    (owner & Ho & Hu) (root_dir & Hrd & Hp) Hother Huid Hfreed.
  destruct args as [| appName rest]; [congruence |].
  unfold returned in Hfreed.
  set (w1 := snd (deleteSubdomain E uid (World history []))) in *.
  assert (Hrun : exists earlier,
             deploySite E (appName :: rest) w
             = (inr tt,
                World (calls w1)
                  (earlier +++
                   [(Stdout, "Looks like this subdomain is free again, please try again.")]))).
  { unfold deploySite, getSubdomains. cbn [List.length Nat.ltb Nat.leb].
    step. rewrite Hsrv. cbn. rewrite Hs, Hr. cbn. rewrite Ht. cbn.
    rewrite Hfind, Hsd. cbn. rewrite Ho, Hu. cbn.
    rewrite String.eqb_refl, Hrd, Hp. cbn.
    rewrite Hother, Huid. cbn.
    rewrite blind_deleteSubdomain. fold history. rewrite Hfreed. fold w1.
    cbn [calls out]. eauto. }
  destruct Hrun as (earlier & Hrun).
  unfold requests, printed. rewrite Hrun. cbn [snd calls out]. eauto.
Qed.

End DeploySitePaths.

Lemma deploySite_requests_shape_witness :
  exists n ids tail,
    requests (deploySite bound_elsewhere ["myapp"]) start
    = calls start +++ select_subdomains_request bound_elsewhere (VObj [])
        :: attempts bound_elsewhere n ids +++ tail
    /\ (tail = []
        \/ tail = [create_subdomain_request bound_elsewhere (candidate ["myapp"])
                     (remote_dir bound_elsewhere ["myapp"])]
        \/ tail = [create_subdomain_request bound_elsewhere
                     (generateAppName bound_elsewhere)
                     (remote_dir bound_elsewhere ["myapp"])]).
Proof.
  apply (@deploySite_requests_shape bound_elsewhere ["myapp"] start).
  discriminate.
Defined.

Lemma deploySite_needs_listing_witness :
  requests (deploySite unreachable ["myapp"]) start
  = calls start +++ [select_subdomains_request unreachable (VObj [])].
Proof.
  refine (proj1 (@deploySite_needs_listing unreachable ["myapp"] start _ _)).
  - discriminate.
  - intros subdomains (st & data & success & Hsrv & _). discriminate Hsrv.
Defined.

Lemma deploySite_stops_after_unbind_witness :
  requests (deploySite released ["myapp"]) start
  = select_subdomains_request released (VObj [])
    :: map (delete_subdomain_request released) (chars "sd-1").
Proof.
  refine (proj1
    (@deploySite_stops_after_unbind released ["myapp"] start
       [entry "sd-1" "myapp" "alice" "/alice/old"]
       (entry "sd-1" "myapp" "alice" "/alice/old")
       (VStr "/alice/old") (VStr "sd-1") _ _ _ _ _ _ _ _)).
  - discriminate.
  - exists 200%Z. do 2 eexists. repeat split; reflexivity.
  - split; reflexivity.
  - eexists. split; reflexivity.
  - eexists. split; reflexivity.
  - reflexivity.
  - reflexivity.
  - reflexivity.
Defined.

(** ** [createApp], over all its paths *)

Lemma get_of_truthy (v : value) (k : string) :
  truthy v = true -> exists x, get v k = inr x.
Proof. destruct v; cbn; intros H; try discriminate H; eauto. Qed.

Section CreateAppPaths.

Variable E : Env.

Local Arguments String.append : simpl never.
Local Arguments create_app_request : simpl never.
Local Arguments mkdir_request : simpl never.
Local Arguments create_subdomain_request : simpl never.
Local Arguments update_app_request : simpl never.


(** X14. When the API does not grant the creation of the app (no document,
    or a falsy [success]), [createApp] reports it and stops: the create
    call is its only request. *)
Theorem createApp_refused
        (name : string) (description url : option string) (w : world)
        (o : bool) (st : Z) (data : value) :
  let create := create_app_request E name (or_default description EmptyString)
                  (or_default url default_url) in
  server E (calls w +++ [create]) = Arrived (Response o st (Some data)) ->
  lacks data "success" = inr true ->
  createApp E name description url w
  = (inr tt,
     World (calls w +++ [create])
       (out w +++
        [(Stdout, "Creating app: " ++ dq ++ name ++ dq ++ "..." ++ nl);
         (Stderr, "Failed to create app " ++ dq ++ name ++ dq)])).
Proof.
  intros create Hsrv Hno. unfold createApp. step. fold create.
  rewrite Hsrv. cbn. rewrite Hno. cbn. rewrite <- app_assoc. reflexivity.
Qed.

(** X15. When the create call is rejected (the API cannot be reached),
    [createApp] prints the reason given by the error and stops. *)
Theorem createApp_unreachable
        (name : string) (description url : option string) (w : world)
        (why : string) :
  let create := create_app_request E name (or_default description EmptyString)
                  (or_default url default_url) in
  server E (calls w +++ [create]) = Rejected why ->
  createApp E name description url w
  = (inr tt,
     World (calls w +++ [create])
       (out w +++
        [(Stdout, "Creating app: " ++ dq ++ name ++ dq ++ "..." ++ nl);
         (Stderr, "Failed to create app " ++ dq ++ name ++ dq ++ "." ++ nl
                    ++ "Error: " ++ why)])).
Proof.
  intros create Hsrv. unfold createApp. step. fold create.
  rewrite Hsrv. cbn. rewrite <- app_assoc. reflexivity.
Qed.

(** X16. When the app and its directory are created and the creation of
    the subdomain is not granted, [createApp] reports it and stops
    without the update call: the app keeps the URL it was created with,
    and neither the app nor the directory is removed. *)
Theorem createApp_stops_when_subdomain_fails
        (name : string) (description url : option string) (w : world)
        (appUid appName username dirName : value) :
  let subdomainName := name ++ "-" ++ first_segment (randomUUID E) in
  let create := create_app_request E name (or_default description EmptyString)
                  (or_default url default_url) in
  let mkdir := mkdir_request E username appUid (randomUUID E) in
  let subdomain :=
    create_subdomain_request E subdomainName
      ("/" ++ to_string username ++ "/AppData/" ++ to_string appUid ++ "/"
           ++ to_string dirName) in
  app_created E (calls w +++ [create]) appUid appName username ->
  directory_created E (calls w +++ [create; mkdir]) dirName ->
  (exists o st data,
      server E (calls w +++ [create; mkdir; subdomain])
        = Arrived (Response o st (Some data))
      /\ lacks data "success" = inr true) ->
  returned (createApp E name description url) w = inr tt
  /\ requests (createApp E name description url) w
     = calls w +++ [create; mkdir; subdomain]
  /\ exists earlier,
      printed (createApp E name description url) w
      = earlier +++
        [(Stderr, "Failed to create subdomain: " ++ dq ++ subdomainName ++ dq)].
Proof.
  intros subdomainName create mkdir subdomain
    (o1 & st1 & d1 & result & owner & Hsrv1 & Hok1 & Hres & Huid & Hname & Hown & Huser)
    (o2 & st2 & d2 & Hsrv2 & Hok2 & Hdir)
    (o3 & st3 & d3 & Hsrv3 & Hno3).
  assert (Huid2 : exists dirUid, get d2 "uid" = inr dirUid).
  { unfold lacks in Hok2. destruct (truthy d2); [| discriminate].
    destruct (get d2 "uid"); [discriminate | eauto]. }
  destruct Huid2 as [dirUid Huid2].
  assert (Hrun : exists earlier,
             createApp E name description url w
             = (inr tt,
                World (calls w +++ [create; mkdir; subdomain])
                  (earlier +++
                   [(Stderr, "Failed to create subdomain: "
                               ++ dq ++ subdomainName ++ dq)]))).
  { unfold createApp. step. fold create. rewrite Hsrv1. cbn.
    rewrite Hok1. cbn. rewrite Hres, Huid, Hname, Hown, Huser. cbn.
    fold mkdir. rewrite <- app_assoc. cbn [app]. rewrite Hsrv2. cbn.
    rewrite Hok2. cbn. rewrite Huid2. cbn. rewrite Hdir. cbn.
    fold subdomainName. fold subdomain. rewrite <- app_assoc. cbn [app].
    rewrite Hsrv3. cbn. rewrite Hno3. cbn. eauto. }
  destruct Hrun as [earlier Hrun].
  unfold returned, requests, printed. rewrite Hrun. cbn. eauto.
Qed.

End CreateAppPaths.

Lemma createApp_refused_witness :
  requests (createApp app_refused "app" None None) start
  = [create_app_request app_refused "app" EmptyString default_url].
Proof.
  unfold requests.
  rewrite (@createApp_refused app_refused "app" None None start true 200
             (VObj [("success", VBool false)]) eq_refl eq_refl).
  reflexivity.
Defined.

Lemma createApp_unreachable_witness :
  requests (createApp unreachable "app" None None) start
  = [create_app_request unreachable "app" EmptyString default_url].
Proof.
  unfold requests.
  rewrite (@createApp_unreachable unreachable "app" None None start
             "network down" eq_refl).
  reflexivity.
Defined.

Lemma createApp_stops_when_subdomain_fails_witness :
  returned (createApp subdomain_refused "app" None None) start = inr tt.
Proof.
  refine (proj1
    (@createApp_stops_when_subdomain_fails subdomain_refused "app" None None
       start (VStr "app-7") (VStr "app") (VStr "alice")
       (VStr "app-1a2b3c4d-0000-4000-8000-000000000000") _ _ _)).
  - exists true, 200%Z. do 3 eexists. repeat split; reflexivity.
  - exists true, 200%Z. eexists. repeat split; reflexivity.
  - exists true, 200%Z. eexists. split; reflexivity.
Defined.

(** ** [deleteApp], over all its paths *)

Section DeleteAppPaths.

Variable E : Env.

Local Arguments String.append : simpl never.
Local Arguments app_request : simpl never.

(** X17. What [deleteApp] returns and requests, on every path: it returns
    [false] or [undefined], never [true]; it returns [false] only after
    the read call alone, and the delete call is only ever sent as second
    request, after the read call. *)
Theorem deleteApp_outcomes (name : string) (w : world) :
  (returned (deleteApp E name) w = inr (VBool false)
   /\ requests (deleteApp E name) w = calls w +++ [app_request E "read" name])
  \/ (returned (deleteApp E name) w = inr VUndef
      /\ (requests (deleteApp E name) w
          = calls w +++ [app_request E "read" name]
          \/ requests (deleteApp E name) w
             = calls w +++ [app_request E "read" name;
                            app_request E "delete" name])).
Proof.
  unfold returned, requests, deleteApp. step.
  repeat (unfold ret, throw; cbn;
          match goal with
          | |- context [match ?x with _ => _ end] =>
              lazymatch x with
              | context [match _ with _ => _ end] => fail
              | _ => destruct x
              end
          end);
    unfold ret, throw; cbn; rewrite <- ?app_assoc; cbn [app]; auto.
Qed.

(** X18. When the app is found and the API grants its deletion,
    [deleteApp] sends the read call and the delete call, ends by printing
    that the app was deleted, and returns [undefined] (not [true]). *)
Theorem deleteApp_deleted (name : string) (w : world) :
  (exists o st data success result,
      server E (calls w +++ [app_request E "read" name])
        = Arrived (Response o st (Some data))
      /\ get data "success" = inr success /\ truthy success = true
      /\ get data "result" = inr result /\ truthy result = true) ->
  granted E (calls w +++ [app_request E "read" name;
                          app_request E "delete" name]) ->
  returned (deleteApp E name) w = inr VUndef
  /\ requests (deleteApp E name) w
     = calls w +++ [app_request E "read" name; app_request E "delete" name]
  /\ exists earlier,
      printed (deleteApp E name) w
      = earlier +++
        [(Stdout, "App " ++ dq ++ name ++ dq ++ " deleted successfully!")].
Proof.
  intros (o & st & data & success & result & Hsrv & Hs & Hts & Hr & Htr)
    (o2 & st2 & d2 & Hsrv2 & Hok2).
  destruct (get_of_truthy result "name" Htr) as [v1 H1].
  destruct (get_of_truthy result "title" Htr) as [v2 H2].
  destruct (get_of_truthy result "created_at" Htr) as [v3 H3].
  destruct (get_of_truthy result "index_url" Htr) as [v4 H4].
  assert (Hd2 : exists s2, get d2 "success" = inr s2 /\ truthy s2 = true).
  { unfold lacks in Hok2. destruct (truthy d2); [| discriminate].
    destruct (get d2 "success") as [e | s2]; [discriminate |].
    exists s2. split; [reflexivity |].
    destruct (truthy s2); [reflexivity | discriminate]. }
  destruct Hd2 as (s2 & Hs2 & Hts2).
  assert (Hrun : exists earlier,
             deleteApp E name w
             = (inr VUndef,
                World (calls w +++ [app_request E "read" name;
                                    app_request E "delete" name])
                  (earlier +++
                   [(Stdout, "App " ++ dq ++ name ++ dq
                               ++ " deleted successfully!")]))).
  { unfold deleteApp. step. rewrite Hsrv. cbn. rewrite Hs, Hr. cbn.
    rewrite Hts, Htr. cbn. rewrite H1, H2, H3, H4. cbn.
    rewrite <- app_assoc. cbn [app]. rewrite Hsrv2. cbn.
    rewrite Hs2. cbn. rewrite Hts2. cbn. eauto. }
  destruct Hrun as [earlier Hrun].
  unfold returned, requests, printed. rewrite Hrun. cbn. eauto.
Qed.

End DeleteAppPaths.

Lemma deleteApp_deleted_witness :
  returned (deleteApp app_deleted "app") start = inr VUndef.
Proof.
  refine (proj1 (@deleteApp_deleted app_deleted "app" start _ _)).
  - exists true, 200%Z. do 3 eexists. repeat split; reflexivity.
  - exists true, 200%Z. eexists. split; reflexivity.
Defined.

(** ** [listApps] and [listSubdomains] *)

Lemma table_rows_length (row : value -> exn + list value) :
  forall items rows,
    table_rows row items = inr rows -> List.length rows = List.length items.
Proof.
  induction items as [| x rest IH]; intros rows H; cbn in H.
  - injection H as <-. reflexivity.
  - destruct (row x) as [e | r]; cbn in H; [discriminate |].
    destruct (table_rows row rest) as [e | rs]; cbn in H; [discriminate |].
    injection H as <-. cbn. now rewrite (IH rs).
Qed.

Section ListingPaths.

Variable E : Env.
Variable D : Display.

Local Arguments String.append : simpl never.
Local Arguments select_apps_request : simpl never.
Local Arguments select_subdomains_request : simpl never.
Local Arguments table_rows : simpl never.
Local Arguments iterate_as : simpl never.

Ltac paths :=
  repeat (unfold ret, throw; cbn;
          match goal with
          | |- context [match ?x with _ => _ end] =>
              lazymatch x with
              | context [match _ with _ => _ end] => fail
              | _ => destruct x
              end
          end);
  unfold ret, throw; cbn.

(** X19. [listApps] asks once, with the period and the icon size it was
    given: whatever the API answers, it returns without an exception and
    its only request is the select call carrying exactly those two
    values. *)
Theorem listApps_single_select (statsPeriod iconSize : value) (w : world) :
  statsPeriod <> VUndef ->
  iconSize <> VUndef ->
  returned (listApps E D (VObj [("statsPeriod", statsPeriod);
                                ("iconSize", iconSize)])) w = inr tt
  /\ requests (listApps E D (VObj [("statsPeriod", statsPeriod);
                                   ("iconSize", iconSize)])) w
     = calls w +++ [select_apps_request E statsPeriod iconSize].
Proof.
  intros Hp Hi. unfold returned, requests, listApps, option_or. step. cbn.
  destruct statsPeriod; try congruence; destruct iconSize; try congruence;
    paths; auto.
Qed.

(** X20. Called without options, [listApps] asks for the period [all] and
    the icon size 64, once, and lets no exception escape. *)
Theorem listApps_defaults (w : world) :
  returned (listApps E D VUndef) w = inr tt
  /\ requests (listApps E D VUndef) w
     = calls w +++ [select_apps_request E (VStr "all") (VNum 64)].
Proof.
  unfold returned, requests, listApps, option_or. step. paths; auto.
Qed.

(** X21. When the answer has no result, [listApps] prints no table: after
    its heading it only reports, on the error stream, that the apps
    cannot be listed. *)
Theorem listApps_unavailable (w : world) (o : bool) (st : Z) (data : value) :
  server E (calls w +++ [select_apps_request E (VStr "all") (VNum 64)])
    = Arrived (Response o st (Some data)) ->
  lacks data "result" = inr true ->
  printed (listApps E D VUndef) w
  = out w +++
    [(Stdout, "Listing of apps during period " ++ dq ++ "all" ++ dq ++ ":" ++ nl);
     (Stderr, "Unable to list your apps. Please check your credentials.")].
Proof.
  intros Hsrv Hno. unfold printed, listApps, option_or. step. cbn.
  rewrite Hsrv. cbn. unfold lacks in Hno.
  destruct (truthy data) eqn:Ht; cbn in *.
  - destruct (get data "result") as [e | result]; [discriminate |]. cbn.
    destruct (truthy result); [discriminate |]. cbn.
    rewrite <- app_assoc. reflexivity.
  - rewrite <- app_assoc. reflexivity.
Qed.

(** X22. When the answer lists the apps (none included) and every row can
    be built, [listApps] prints its heading, the table of those rows, one
    row per app, and the number of apps. *)
Theorem listApps_table (w : world) (o : bool) (st : Z) (data : value)
        (apps : list value) (rows : list (list value)) :
  server E (calls w +++ [select_apps_request E (VStr "all") (VNum 64)])
    = Arrived (Response o st (Some data)) ->
  get data "result" = inr (VArr apps) ->
  table_rows (app_row D) apps = inr rows ->
  List.length rows = List.length apps
  /\ printed (listApps E D VUndef) w
     = out w +++
       [(Stdout, "Listing of apps during period " ++ dq ++ "all" ++ dq ++ ":" ++ nl);
        (Stdout, table_toString D apps_table rows);
        (Stdout, "You have in total: "
                   ++ to_string (VNum (Z.of_nat (List.length apps)))
                   ++ " application(s).")].
Proof.
  intros Hsrv Hres Hrows. split; [eapply table_rows_length; eassumption |].
  assert (Ht : truthy data = true)
    by (destruct data; cbn in Hres; try discriminate Hres; reflexivity).
  unfold printed, listApps, option_or. step. cbn.
  rewrite Hsrv. cbn. rewrite Ht. cbn. rewrite Hres. cbn.
  unfold iterate_as. rewrite Hrows. cbn.
  rewrite <- !app_assoc. reflexivity.
Qed.

(** X24. [listSubdomains] asks once too: on every path its only request is
    the select call with the filter it was given ([{}] by default). *)
Theorem listSubdomains_single_select (args : value) (w : world) :
  requests (listSubdomains E D args) w
  = calls w +++
    [select_subdomains_request E
       (match args with VUndef => VObj [] | _ => args end)].
Proof.
  unfold requests, listSubdomains, getSubdomains. step.
  destruct args; paths; reflexivity.
Qed.


(** X26. When the select call does not yield a list, [listSubdomains]
    throws: a rejected request comes out as the error of the rejection,
    a status that is not ok as [Failed to fetch subdomains.]. *)
Theorem listSubdomains_throws_without_listing
        (args : value) (w : world) (reason : string) :
  let select := select_subdomains_request E
                  (match args with VUndef => VObj [] | _ => args end) in
  server E (calls w +++ [select]) = Rejected reason
  \/ (reason = "Failed to fetch subdomains."
      /\ exists st document,
          server E (calls w +++ [select])
          = Arrived (Response false st document)) ->
  returned (listSubdomains E D args) w = inl (Error reason).
Proof.
  intros select Hsrv. subst select.
  unfold returned, listSubdomains, getSubdomains. step.
  destruct args; cbn in Hsrv |- *;
    destruct Hsrv as [-> | (-> & st & document & ->)]; reflexivity.
Qed.

(** X27. With an empty list, [listSubdomains] prints that no subdomain was
    found, and neither a heading nor a table. *)
Theorem listSubdomains_empty (args : value) (w : world) (st : Z)
        (data success : value) :
  server E (calls w +++
            [select_subdomains_request E
               (match args with VUndef => VObj [] | _ => args end)])
    = Arrived (Response true st (Some data)) ->
  get data "success" = inr success -> truthy success = true ->
  get data "result" = inr (VArr []) ->
  returned (listSubdomains E D args) w = inr tt
  /\ printed (listSubdomains E D args) w
     = out w +++ [(Stdout, "No subdomains found")].
Proof.
  intros Hsrv Hs Ht Hr. unfold returned, printed, listSubdomains, getSubdomains.
  step.
  destruct args; cbn in Hsrv |- *; rewrite Hsrv; cbn; rewrite Hs, Hr; cbn;
    rewrite Ht; cbn; unfold table_rows; cbn; auto.
Qed.

(** X28. With a list that is not empty and whose rows can all be built,
    [listSubdomains] prints a heading, the table of those rows, one row
    per subdomain, and the number of subdomains. *)
Theorem listSubdomains_table (args : value) (w : world) (st : Z)
        (data success : value) (domains : list value)
        (rows : list (list value)) :
  server E (calls w +++
            [select_subdomains_request E
               (match args with VUndef => VObj [] | _ => args end)])
    = Arrived (Response true st (Some data)) ->
  get data "success" = inr success -> truthy success = true ->
  get data "result" = inr (VArr domains) ->
  domains <> [] ->
  table_rows (subdomain_row D) domains = inr rows ->
  List.length rows = List.length domains
  /\ returned (listSubdomains E D args) w = inr tt
  /\ printed (listSubdomains E D args) w
     = out w +++
       [(Stdout, nl ++ "Your Subdomains:");
        (Stdout, table_toString D subdomains_table rows);
        (Stdout, "Total subdomains: "
                   ++ to_string (VNum (Z.of_nat (List.length domains))))].
Proof.
  intros Hsrv Hs Ht Hr Hne Hrows.
  split; [eapply table_rows_length; eassumption |].
  assert (Hrun : listSubdomains E D args w
                 = (inr tt,
                    World (calls w +++
                           [select_subdomains_request E
                              (match args with VUndef => VObj [] | _ => args end)])
                      (out w +++
                       [(Stdout, nl ++ "Your Subdomains:");
                        (Stdout, table_toString D subdomains_table rows);
                        (Stdout, "Total subdomains: "
                                   ++ to_string
                                        (VNum (Z.of_nat (List.length domains))))]))).
  { unfold listSubdomains, getSubdomains. step.
    destruct domains as [| d rest]; [congruence |].
    destruct args; cbn in Hsrv |- *; rewrite Hsrv; cbn; rewrite Hs, Hr; cbn;
      rewrite Ht; cbn; rewrite Hrows; cbn; rewrite <- !app_assoc;
      reflexivity. }
  unfold returned, printed. rewrite Hrun. auto.
Qed.

End ListingPaths.

Lemma listApps_single_select_witness :
  requests (listApps two_apps plain_display
              (VObj [("statsPeriod", VStr "7d"); ("iconSize", VNum 32)])) start
  = calls start +++ [select_apps_request two_apps (VStr "7d") (VNum 32)].
Proof.
  refine (proj2 (@listApps_single_select two_apps plain_display
                   (VStr "7d") (VNum 32) start _ _)); discriminate.
Defined.

Lemma listApps_unavailable_witness :
  printed (listApps no_result plain_display VUndef) start
  = out start +++
    [(Stdout, "Listing of apps during period " ++ dq ++ "all" ++ dq ++ ":" ++ nl);
     (Stderr, "Unable to list your apps. Please check your credentials.")].
Proof.
  apply (@listApps_unavailable no_result plain_display start true 200
           (VObj [("success", VBool false)])); reflexivity.
Defined.

Lemma listApps_table_witness :
  printed (listApps two_apps plain_display VUndef) start
  = out start +++
    [(Stdout, "Listing of apps during period " ++ dq ++ "all" ++ dq ++ ":" ++ nl);
     (Stdout, "table of 2");
     (Stdout, "You have in total: 2 application(s).")].
Proof.
  refine (proj2
    (@listApps_table two_apps plain_display start true 200
       (VObj [("success", VBool true);
              ("result",
               VArr [app_entry "Blog" "blog" "https://blog.puter.site";
                     app_entry "Shop" "shop" "https://shop.puter.site"])])
       [app_entry "Blog" "blog" "https://blog.puter.site";
        app_entry "Shop" "shop" "https://shop.puter.site"]
       [[VStr "Blog"; VStr "blog"; VStr "2025-01-01"; VStr "blog"; VNum 3; VNum 2];
        [VStr "Shop"; VStr "shop"; VStr "2025-01-01"; VStr "shop"; VNum 3; VNum 2]]
       _ _ _)); reflexivity.
Defined.


Lemma listSubdomains_throws_without_listing_witness :
  returned (listSubdomains unreachable plain_display VUndef) start
  = inl (Error "network down").
Proof.
  apply (@listSubdomains_throws_without_listing unreachable plain_display
           VUndef start "network down").
  left. reflexivity.
Defined.

Lemma listSubdomains_empty_witness :
  returned (listSubdomains no_subdomains plain_display VUndef) start = inr tt
  /\ printed (listSubdomains no_subdomains plain_display VUndef) start
     = out start +++ [(Stdout, "No subdomains found")].
Proof.
  apply (@listSubdomains_empty no_subdomains plain_display VUndef start 200
           (VObj [("success", VBool true); ("result", VArr [])]) (VBool true));
    reflexivity.
Defined.

Lemma listSubdomains_table_witness :
  printed (listSubdomains one_subdomain plain_display VUndef) start
  = out start +++
    [(Stdout, nl ++ "Your Subdomains:");
     (Stdout, "table of 1");
     (Stdout, "Total subdomains: 1")].
Proof.
  refine (proj2 (proj2
    (@listSubdomains_table one_subdomain plain_display VUndef start 200
       (VObj [("success", VBool true);
              ("result", VArr [entry "sd-1" "myapp" "alice" "/alice/site"])])
       (VBool true)
       [entry "sd-1" "myapp" "alice" "/alice/site"]
       [[VStr "sd-1"; VStr "myapp.puter.site"; VStr "undefined"; VStr "No";
         VStr "site"]]
       _ _ _ _ _ _))); try reflexivity.
  discriminate.
Defined.
